(** * Charity platform: the application-status workflow, verified

    A shallow embedding of the server routes (routes of [registerRoutes]),
    of the persistence adapter ([DatabaseStorage], storage.ts), of the table
    definitions (schema.ts) and of the admin dashboard's derived values
    (the [Admin] component), followed by the properties of the
    specification that concern them.  The routes that read, the routes of
    the profile, the counters of the applicant's dashboard, the heading of
    an application card and the masking of account numbers are embedded as
    well, with the properties that their code shows.

    Conventions.
    - A JavaScript string is a [string]; its [length] counts the characters
      of the model.
    - [undefined] and [null] are kept apart: a value of type
      [T | null | undefined] is an [option (option T)], [None] being
      [undefined] and [Some None] being [null].  A nullable column is an
      [option].
    - The two sources of non-determinism, the clock ([new Date()], the
      column default [now()]) and [gen_random_uuid()], are oracles: the
      n-th reading of each is a parameter of the development and the state
      counts the readings made so far.
    - Column values are stored as the text that was written; the
      canonical form that a [decimal(10,2)] column gives to a number is not
      modelled.  The rows of the model are therefore a superset of the rows
      of the database. *)

From Stdlib Require Import ZArith String Ascii List Bool DecimalString.
From stdpp Require Import base option tactics decidable list sorting strings gmap fin_maps.

Local Open Scope string_scope.

(** ** Data model (schema.ts) *)

(** [applicationStatusEnum] *)
Inductive Status : Type :=
  | pending
  | under_review
  | approved
  | rejected
  | paid.

(** [countryEnum] *)
Inductive Country : Type :=
  | UK
  | USA.

#[global] Instance Status_eq_dec : EqDecision Status.
Proof. solve_decision. Defined.

#[global] Instance Country_eq_dec : EqDecision Country.
Proof. solve_decision. Defined.

(** The text of an enum member, as it travels in JSON. *)
Definition statusName (s : Status) : string :=
  match s with
  | pending => "pending"
  | under_review => "under_review"
  | approved => "approved"
  | rejected => "rejected"
  | paid => "paid"
  end.

Definition countryName (c : Country) : string :=
  match c with
  | UK => "UK"
  | USA => "USA"
  end.

Definition Timestamp : Type := Z.

(** A row of the [bank_details] table. *)
Module BankDetails.
Record t : Type := mk {
  id : string;
  userId : string;
  country : Country;
  bankName : string;
  accountNumber : string;
  sortCode : option string;
  routingNumber : option string;
  accountHolderName : option string;
  isVerified : string;
  createdAt : option Timestamp;
  updatedAt : option Timestamp
}.
End BankDetails.

(** A row of the [applications] table. *)
Module Application.
Record t : Type := mk {
  id : string;
  userId : string;
  bankDetailsId : option string;
  reason : string;
  amountRequested : string;
  currency : string;
  supportingDocuments : option (list string);
  status : Status;
  adminNotes : option string;
  reviewedBy : option string;
  reviewedAt : option Timestamp;
  paidAt : option Timestamp;
  paidAmount : option string;
  createdAt : option Timestamp;
  updatedAt : option Timestamp
}.
End Application.

(** [Partial<Application>]: every property of a row, each possibly
    [undefined]. *)
Module PartialApplication.
Record t : Type := mk {
  id : option string;
  userId : option string;
  bankDetailsId : option (option string);
  reason : option string;
  amountRequested : option string;
  currency : option string;
  supportingDocuments : option (option (list string));
  status : option Status;
  adminNotes : option (option string);
  reviewedBy : option (option string);
  reviewedAt : option (option Timestamp);
  paidAt : option (option Timestamp);
  paidAmount : option (option string);
  createdAt : option (option Timestamp);
  updatedAt : option (option Timestamp)
}.

(** The object literal [{}]. *)
Definition empty : t :=
  mk None None None None None None None None None None None None None None None.

(** Property assignments [data.status = v], [data.adminNotes = v], ... *)
Definition set_status (v : Status) (p : t) : t :=
  mk (id p) (userId p) (bankDetailsId p) (reason p) (amountRequested p) (currency p)
     (supportingDocuments p) (Some v) (adminNotes p) (reviewedBy p) (reviewedAt p)
     (paidAt p) (paidAmount p) (createdAt p) (updatedAt p).

Definition set_adminNotes (v : option string) (p : t) : t :=
  mk (id p) (userId p) (bankDetailsId p) (reason p) (amountRequested p) (currency p)
     (supportingDocuments p) (status p) (Some v) (reviewedBy p) (reviewedAt p)
     (paidAt p) (paidAmount p) (createdAt p) (updatedAt p).

Definition set_reviewedBy (v : option string) (p : t) : t :=
  mk (id p) (userId p) (bankDetailsId p) (reason p) (amountRequested p) (currency p)
     (supportingDocuments p) (status p) (adminNotes p) (Some v) (reviewedAt p)
     (paidAt p) (paidAmount p) (createdAt p) (updatedAt p).

Definition set_reviewedAt (v : option Timestamp) (p : t) : t :=
  mk (id p) (userId p) (bankDetailsId p) (reason p) (amountRequested p) (currency p)
     (supportingDocuments p) (status p) (adminNotes p) (reviewedBy p) (Some v)
     (paidAt p) (paidAmount p) (createdAt p) (updatedAt p).

Definition set_paidAt (v : option Timestamp) (p : t) : t :=
  mk (id p) (userId p) (bankDetailsId p) (reason p) (amountRequested p) (currency p)
     (supportingDocuments p) (status p) (adminNotes p) (reviewedBy p) (reviewedAt p)
     (Some v) (paidAmount p) (createdAt p) (updatedAt p).

Definition set_paidAmount (v : option string) (p : t) : t :=
  mk (id p) (userId p) (bankDetailsId p) (reason p) (amountRequested p) (currency p)
     (supportingDocuments p) (status p) (adminNotes p) (reviewedBy p) (reviewedAt p)
     (paidAt p) (Some v) (createdAt p) (updatedAt p).
End PartialApplication.

(** The argument of [createBankDetails]. *)
Module NewBankDetails.
Record t : Type := mk {
  userId : string;
  country : Country;
  bankName : string;
  accountNumber : string;
  sortCode : option (option string);
  routingNumber : option (option string);
  accountHolderName : option (option string);
  isVerified : option string
}.
End NewBankDetails.

(** The argument of [createApplication]. *)
Module NewApplication.
Record t : Type := mk {
  userId : string;
  reason : string;
  amountRequested : string;
  currency : string;
  bankDetailsId : option (option string);
  supportingDocuments : option (option (list string))
}.
End NewApplication.

(** ** JavaScript values *)

(** A parsed JSON document, the [req.body] of a route. *)
#[local] Set Warnings "-register-all".
Inductive Json : Type :=
  | JNull
  | JBool (b : bool)
  | JNumber (n : Z)
  | JString (s : string)
  | JArray (items : list Json)
  | JObject (fields : list (string * Json)).

(** [o[k]]: the property [k] of an object, [None] being [undefined].  The
    keys of an object are distinct; the first binding is the property. *)
Fixpoint property (k : string) (fields : list (string * Json)) : option Json :=
  match fields with
  | [] => None
  | (k', v) :: rest => if String.eqb k k' then Some v else property k rest
  end.

(** Truthiness of a [string | null | undefined]. *)
Definition truthy (v : option (option string)) : bool :=
  match v with
  | Some (Some s) => negb (String.eqb s "")
  | _ => false
  end.

(** [v || null] for a [string | null | undefined]. *)
Definition or_null (v : option (option string)) : option string :=
  match v with
  | Some (Some s) => if String.eqb s "" then None else Some s
  | _ => None
  end.

(** [v || null] for a [string[] | null | undefined]; an array is truthy. *)
Definition array_or_null (v : option (option (list string))) : option (list string) :=
  match v with
  | Some (Some l) => Some l
  | _ => None
  end.

(** ** Validation schemas (zod) *)

Inductive Parsed (A : Type) : Type :=
  | Valid (a : A)
  | Invalid.
Arguments Valid {A} a.
Arguments Invalid {A}.

Definition parsed_bind {A B : Type} (p : Parsed A) (k : A -> Parsed B) : Parsed B :=
  match p with
  | Valid a => k a
  | Invalid => Invalid
  end.

Notation "x <~ p ;; k" := (parsed_bind p (fun x => k))
  (at level 100, p at next level, right associativity).

(** [z.string().min(n)] *)
Definition z_string_min (n : nat) (v : option Json) : Parsed string :=
  match v with
  | Some (JString s) => if (n <=? String.length s)%nat then Valid s else Invalid
  | _ => Invalid
  end.

(** [z.string().optional().nullable()] *)
Definition z_string_optional_nullable (v : option Json) : Parsed (option (option string)) :=
  match v with
  | None => Valid None
  | Some JNull => Valid (Some None)
  | Some (JString s) => Valid (Some (Some s))
  | Some _ => Invalid
  end.

(** [z.enum(["UK", "USA"])] *)
Definition z_enum_country (v : option Json) : Parsed Country :=
  match v with
  | Some (JString s) =>
      if String.eqb s "UK" then Valid UK
      else if String.eqb s "USA" then Valid USA
      else Invalid
  | _ => Invalid
  end.

(** [z.enum(["GBP", "USD"])]; the value stays a string. *)
Definition z_enum_currency (v : option Json) : Parsed string :=
  match v with
  | Some (JString s) =>
      if String.eqb s "GBP" || String.eqb s "USD" then Valid s else Invalid
  | _ => Invalid
  end.

(** [z.enum(["pending", "under_review", "approved", "rejected", "paid"])] *)
Definition z_enum_status (s : string) : Parsed Status :=
  if String.eqb s "pending" then Valid pending
  else if String.eqb s "under_review" then Valid under_review
  else if String.eqb s "approved" then Valid approved
  else if String.eqb s "rejected" then Valid rejected
  else if String.eqb s "paid" then Valid paid
  else Invalid.

(** [z.enum([...]).optional()] *)
Definition z_enum_status_optional (v : option Json) : Parsed (option Status) :=
  match v with
  | None => Valid None
  | Some (JString s) => s' <~ z_enum_status s ;; Valid (Some s')
  | Some _ => Invalid
  end.

(** [z.infer<typeof bankDetailsSchema>] of the server. *)
Module BankDetailsData.
Record t : Type := mk {
  country : Country;
  bankName : string;
  accountNumber : string;
  sortCode : option (option string);
  routingNumber : option (option string);
  accountHolderName : option (option string)
}.
End BankDetailsData.

(** [z.infer<typeof applicationSchema>] of the server. *)
Module ApplicationData.
Record t : Type := mk {
  reason : string;
  amountRequested : string;
  currency : string;
  bankDetailsId : option (option string)
}.
End ApplicationData.

(** [z.infer<typeof updateApplicationSchema>] *)
Module UpdateData.
Record t : Type := mk {
  status : option Status;
  adminNotes : option (option string)
}.
End UpdateData.

(** [bankDetailsSchema] of the server: an object whose unknown keys are
    dropped. *)
Definition bankDetailsSchema (v : option Json) : Parsed BankDetailsData.t :=
  match v with
  | Some (JObject o) =>
      country <~ z_enum_country (property "country" o) ;;
      bankName <~ z_string_min 2 (property "bankName" o) ;;
      accountNumber <~ z_string_min 6 (property "accountNumber" o) ;;
      sortCode <~ z_string_optional_nullable (property "sortCode" o) ;;
      routingNumber <~ z_string_optional_nullable (property "routingNumber" o) ;;
      accountHolderName <~ z_string_optional_nullable (property "accountHolderName" o) ;;
      Valid (BankDetailsData.mk country bankName accountNumber sortCode routingNumber
               accountHolderName)
  | _ => Invalid
  end.

(** [bankDetailsSchema.optional()] *)
Definition bankDetailsSchema_optional (v : option Json) : Parsed (option BankDetailsData.t) :=
  match v with
  | None => Valid None
  | Some _ => d <~ bankDetailsSchema v ;; Valid (Some d)
  end.

(** [updateApplicationSchema] *)
Definition updateApplicationSchema (body : Json) : Parsed UpdateData.t :=
  match body with
  | JObject o =>
      status <~ z_enum_status_optional (property "status" o) ;;
      adminNotes <~ z_string_optional_nullable (property "adminNotes" o) ;;
      Valid (UpdateData.mk status adminNotes)
  | _ => Invalid
  end.

(** ** State of the service *)

(** The two tables the routes below work on, and the number of clock
    readings and of generated identifiers so far.  (The [users] table belongs
    to the authentication integration; every authenticated caller has a row
    in it, so the foreign keys into [users] always hold.  [user_profiles] is
    touched by the profile routes only.) *)
Record State : Type := mkState {
  bankDetails : gmap string BankDetails.t;
  applications : gmap string Application.t;
  tick : nat;
  serial : nat
}.

Definition initial : State := mkState ∅ ∅ 0 0.

(** What a handler may throw: a [ZodError], or an error of the database
    driver. *)
Inductive Exn : Type :=
  | ZodError
  | DbError.

Inductive Outcome (A : Type) : Type :=
  | Returned (a : A)
  | Thrown (e : Exn).
Arguments Returned {A} a.
Arguments Thrown {A} e.

(** Computations over the state that may throw.  The database has no
    transaction around a handler: what was written before a throw stays. *)
Definition M (A : Type) : Type := State -> Outcome A * State.

Definition ret {A : Type} (a : A) : M A := fun s => (Returned a, s).

Definition throw {A : Type} (e : Exn) : M A := fun s => (Thrown e, s).

Definition bind {A B : Type} (m : M A) (k : A -> M B) : M B :=
  fun s =>
    match m s with
    | (Returned a, s') => k a s'
    | (Thrown e, s') => (Thrown e, s')
    end.


Notation "x <- m ;; k" := (bind m (fun x => k))
  (at level 100, m at next level, right associativity).

Definition get : M State := fun s => (Returned s, s).

(** [schema.parse(v)]: throws a [ZodError] on invalid input. *)
Definition parse {A : Type} (p : Parsed A) : M A :=
  match p with
  | Valid a => ret a
  | Invalid => throw ZodError
  end.

(** ** HTTP responses *)

Inductive Payload : Type :=
  | Message (m : string)
  | InvalidData
  | BankDetailsJson (b : BankDetails.t)
  | ApplicationJson (a : option Application.t)
  | Success.

Record Response : Type := mkResponse {
  statusCode : nat;
  payload : Payload
}.

(** [res.json(x)] *)
Definition json (p : Payload) : Response := mkResponse 200 p.

(** [res.status(c).json({ message })] *)
Definition status_message (c : nat) (m : string) : Response := mkResponse c (Message m).

(** A route handler: it always answers. *)
Definition Route : Type := State -> Response * State.

(** [try { m } catch (error) { return h(error) }], the shape of every
    handler: the [catch] clause only builds a response. *)
Definition try_catch (m : M Response) (h : Exn -> Response) : Route :=
  fun s =>
    match m s with
    | (Returned response, s') => (response, s')
    | (Thrown e, s') => (h e, s')
    end.

(** ** The request form of the client (apply.tsx) *)

Module Apply.

(** [z.infer<typeof bankDetailsSchema>] of the form. *)
Record BankDetailsFormData : Type := mkBankDetailsFormData {
  country : Country;
  bankName : string;
  accountNumber : string;
  sortCode : option string;
  routingNumber : option string
}.

(** [z.string().optional()] *)
Definition z_string_optional (v : option Json) : Parsed (option string) :=
  match v with
  | None => Valid None
  | Some (JString s) => Valid (Some s)
  | Some _ => Invalid
  end.

(** [v && v.length >= n] for a [string | undefined] *)
Definition present_with_length (n : nat) (v : option string) : bool :=
  match v with
  | Some s => negb (String.eqb s "") && (n <=? String.length s)%nat
  | None => false
  end.

(** The predicate given to [refine]. *)
Definition routing_information (data : BankDetailsFormData) : bool :=
  match country data with
  | UK => present_with_length 6 (sortCode data)
  | USA => present_with_length 9 (routingNumber data)
  end.

(** [bankDetailsSchema] of the form: the object schema, then the
    refinement. *)
Definition bankDetailsSchema (v : Json) : Parsed BankDetailsFormData :=
  match v with
  | JObject o =>
      country <~ z_enum_country (property "country" o) ;;
      bankName <~ z_string_min 2 (property "bankName" o) ;;
      accountNumber <~ z_string_min 6 (property "accountNumber" o) ;;
      sortCode <~ z_string_optional (property "sortCode" o) ;;
      routingNumber <~ z_string_optional (property "routingNumber" o) ;;
      let data := mkBankDetailsFormData country bankName accountNumber sortCode
                    routingNumber in
      if routing_information data then Valid data else Invalid
  | _ => Invalid
  end.

End Apply.

(** ** The admin dashboard (the [Admin] component) *)

(** [s.includes(sub)] *)
Fixpoint includes (s sub : string) : bool :=
  String.prefix sub s
  || match s with
     | EmptyString => false
     | String _ rest => includes rest sub
     end.

Module Admin.

(** The [user] of a dashboard row. *)
Record User : Type := mkUser {
  id : string;
  email : option string;
  firstName : option string;
  lastName : option string
}.

(** [ApplicationWithUser]: a row of [getAllApplicationsWithDetails]. *)
Record ApplicationWithUser : Type := mkApplicationWithUser {
  application : Application.t;
  user : option User;
  bankDetails : option BankDetails.t
}.

Record Stats : Type := mkStats {
  total : nat;
  pending_count : nat;
  underReview : nat;
  approved_count : nat
}.

(** A [string | null] inside a template literal. *)
Definition interpolate (v : option string) : string :=
  match v with
  | Some s => s
  | None => "null"
  end.

(** [`${app.user?.firstName} ${app.user?.lastName}`] *)
Definition full_name (app : ApplicationWithUser) : string :=
  match user app with
  | Some u => interpolate (firstName u) ++ " " ++ interpolate (lastName u)
  | None => "undefined undefined"
  end.

Definition has_status (st : Status) (app : ApplicationWithUser) : bool :=
  bool_decide (Application.status (application app) = st).

(** The actions the dashboard offers on a row, by the status each one
    requests: "Mark Under Review", "Approve" and "Reject", "Mark as
    Paid". *)
Definition offered_actions (current : Status) : list Status :=
  (if bool_decide (current = pending) then [under_review] else [])
  ++ (if bool_decide (current = pending) || bool_decide (current = under_review)
      then [approved; rejected] else [])
  ++ (if bool_decide (current = approved) then [paid] else []).

Section Filter.

(** [String.prototype.toLowerCase], which follows the Unicode case
    mapping. *)
Variable toLowerCase : string -> string.

Definition matchesSearch (searchQuery : string) (app : ApplicationWithUser) : bool :=
  includes (toLowerCase (Application.reason (application app))) (toLowerCase searchQuery)
  || match user app with
     | Some u =>
         match email u with
         | Some e => includes (toLowerCase e) (toLowerCase searchQuery)
         | None => false
         end
     | None => false
     end
  || includes (toLowerCase (full_name app)) (toLowerCase searchQuery).

Definition matchesStatus (statusFilter : string) (app : ApplicationWithUser) : bool :=
  String.eqb statusFilter "all"
  || String.eqb (statusName (Application.status (application app))) statusFilter.

(** [filteredApplications]; [None] while the query has no data. *)
Definition filteredApplications (applications : option (list ApplicationWithUser))
    (searchQuery statusFilter : string) : option (list ApplicationWithUser) :=
  match applications with
  | Some apps =>
      Some (List.filter
              (fun app => matchesSearch searchQuery app && matchesStatus statusFilter app)
              apps)
  | None => None
  end.

End Filter.

(** [applications?.filter(p).length || 0] *)
Definition count_where (p : ApplicationWithUser -> bool)
    (applications : option (list ApplicationWithUser)) : nat :=
  match applications with
  | Some apps => List.length (List.filter p apps)
  | None => 0
  end.

(** [stats] *)
Definition stats (applications : option (list ApplicationWithUser)) : Stats :=
  mkStats
    (count_where (fun _ => true) applications)
    (count_where (has_status pending) applications)
    (count_where (has_status under_review) applications)
    (count_where (fun a => has_status approved a || has_status paid a) applications).

End Admin.

(** ** The transition table of the specification *)

(** The rows of the table of section 4.1 of the specification, as written
    there: from, to. *)
Definition spec_transition_table : list (Status * Status) :=
  [ (pending, under_review);
    (pending, approved);
    (under_review, approved);
    (pending, rejected);
    (under_review, rejected);
    (approved, paid) ].

Definition in_spec_transition_table (current requested : Status) : bool :=
  bool_decide ((current, requested) ∈ spec_transition_table).

(** ** Profiles (schema.ts) *)

(** A row of the [user_profiles] table; [userRoleEnum] is its [Role]. *)
Module UserProfile.
Inductive Role : Type :=
  | beneficiary
  | admin.

Record t : Type := mk {
  id : string;
  userId : string;
  fullName : string;
  phone : option string;
  country : Country;
  address : option string;
  role : Role;
  createdAt : option Timestamp;
  updatedAt : option Timestamp
}.
End UserProfile.

#[global] Instance Role_eq_dec : EqDecision UserProfile.Role.
Proof. solve_decision. Defined.

(** [Partial<InsertUserProfile>]: the columns of a profile but [id],
    [createdAt] and [updatedAt], each possibly [undefined].  An
    [InsertUserProfile] is one whose [userId] and [fullName] are defined. *)
Module PartialUserProfile.
Record t : Type := mk {
  userId : option string;
  fullName : option string;
  phone : option (option string);
  country : option Country;
  address : option (option string);
  role : option UserProfile.Role
}.
End PartialUserProfile.

(** [z.infer<typeof profileSchema>] of the server. *)
Module ProfileData.
Record t : Type := mk {
  fullName : string;
  phone : option (option string);
  country : Country;
  address : option (option string)
}.
End ProfileData.

(** [profileSchema] of the server. *)
Definition profileSchema (body : Json) : Parsed ProfileData.t :=
  match body with
  | JObject o =>
      fullName <~ z_string_min 2 (property "fullName" o) ;;
      phone <~ z_string_optional_nullable (property "phone" o) ;;
      country <~ z_enum_country (property "country" o) ;;
      address <~ z_string_optional_nullable (property "address" o) ;;
      Valid (ProfileData.mk fullName phone country address)
  | _ => Invalid
  end.

(** The value a nullable column takes from a [T | null | undefined] given to
    an insert: [undefined] leaves the default, [null]. *)
Definition column_value {A : Type} (v : option (option A)) : option A :=
  match v with
  | Some (Some x) => Some x
  | _ => None
  end.

(** ** Answers of the routes that read *)

(** [res.json(a)], or [res.status(code).json({ message })]. *)
Inductive Answer (A : Type) : Type :=
  | Json200 (a : A)
  | Failure (code : nat) (message : string).
Arguments Json200 {A} a.
Arguments Failure {A} code message.

Definition answer_code {A : Type} (a : Answer A) : nat :=
  match a with
  | Json200 _ => 200
  | Failure code _ => code
  end.

(** [try { m } catch (error) { res.status(500).json({ message }) }] *)
Definition try_read {A : Type} (m : M (Answer A)) (failure : string)
  : State -> Answer A * State :=
  fun s =>
    match m s with
    | (Returned a, s') => (a, s')
    | (Thrown _, s') => (Failure 500 failure, s')
    end.

(** The rows of a table, in the order in which a [select] without
    [orderBy] yields them (an order the database does not promise). *)
Definition rows {A : Type} (t : gmap string A) : list A := snd <$> map_to_list t.

(** [orderBy(desc(applications.createdAt))]: [x] may come before [y].  In
    descending order a null comes first. *)
Definition at_or_after (x y : option Timestamp) : Prop :=
  match x, y with
  | None, _ => True
  | Some _, None => False
  | Some a, Some b => (b <= a)%Z
  end.

#[global] Instance at_or_after_dec x y : Decision (at_or_after x y).
Proof. destruct x, y; simpl; apply _. Defined.

Definition newest_first (a b : Application.t) : Prop :=
  at_or_after (Application.createdAt a) (Application.createdAt b).

#[global] Instance newest_first_dec a b : Decision (newest_first a b).
Proof. unfold newest_first. apply _. Defined.

(** ** The dashboard of an applicant (the [Dashboard] component) *)

Module Dashboard.

Record Stats : Type := mkStats {
  total : nat;
  pending_count : nat;
  approved_count : nat;
  paid_count : nat
}.

Definition has_status (st : Status) (a : Application.t) : bool :=
  bool_decide (Application.status a = st).

(** [applications?.filter(p).length || 0] *)
Definition count_where (p : Application.t -> bool)
    (applications : option (list Application.t)) : nat :=
  match applications with
  | Some apps => List.length (List.filter p apps)
  | None => 0
  end.

(** [stats]: the properties [pending], [approved] and [paid] are the
    fields [pending_count], [approved_count] and [paid_count]. *)
Definition stats (applications : option (list Application.t)) : Stats :=
  mkStats
    (count_where (fun _ => true) applications)
    (count_where (fun a => has_status pending a || has_status under_review a) applications)
    (count_where (has_status approved) applications)
    (count_where (has_status paid) applications).

End Dashboard.

(** ** The card of an application (the [ApplicationCard] component) *)

Module ApplicationCard.

(** The heading: the reason, cut after fifty characters. *)
Definition heading (application : Application.t) : string :=
  if (50 <? String.length (Application.reason application))%nat
  then String.substring 0 50 (Application.reason application) ++ "..."
  else Application.reason application.

(** Whether the card shows "Payment received":
    [application.status === "paid" && application.paidAmount]. *)
Definition shows_payment (application : Application.t) : bool :=
  bool_decide (Application.status application = paid)
  && truthy (Some (Application.paidAmount application)).

End ApplicationCard.

(** [s.slice(-n)]: the last [n] characters, the whole of a shorter
    string. *)
Definition slice_last (n : nat) (s : string) : string :=
  String.substring (String.length s - n) n s.

(** The account number as the pages show it:
    [****{accountNumber.slice(-4)}]. *)
Definition masked_account (accountNumber : string) : string :=
  "****" ++ slice_last 4 accountNumber.

(** ** Requests *)

(** The requests that change the two tables, each with the authenticated
    caller.  (The [GET] routes read only.) *)
Inductive Request : Type :=
  | PostBankDetails (userId : string) (body : Json)
  | DeleteBankDetails (userId id : string)
  | PostApplications (userId : string) (body : Json)
  | PatchAdminApplication (adminUserId id : string) (body : Json).

(** ** Sample oracles and requests *)

Module Demo.

Definition clock (n : nat) : Timestamp := (1700000000000 + Z.of_nat n)%Z.

Definition gen_random_uuid (n : nat) : string :=
  "id-" ++ NilEmpty.string_of_uint (Nat.to_uint n).

Definition is_digit (c : ascii) : bool :=
  (48 <=? nat_of_ascii c)%nat && (nat_of_ascii c <=? 57)%nat.

Definition is_point (c : ascii) : bool := Ascii.eqb c ".".

Definition is_nonzero_digit (c : ascii) : bool :=
  (49 <=? nat_of_ascii c)%nat && (nat_of_ascii c <=? 57)%nat.

(** A part of the test on amounts that needs no floating-point
    arithmetic: at most fifteen characters, digits and at most one point,
    one digit at least not being 0.  [parseFloat] reads each of these as
    a positive number. *)
Definition positiveAmount (s : string) : bool :=
  let cs := list_ascii_of_string s in
  (List.length cs <=? 15)%nat
  && List.forallb (fun c => is_digit c || is_point c) cs
  && (List.length (List.filter is_point cs) <=? 1)%nat
  && List.existsb is_nonzero_digit cs.

Definition toLowerCase_char (c : ascii) : ascii :=
  if (65 <=? nat_of_ascii c)%nat && (nat_of_ascii c <=? 90)%nat
  then ascii_of_nat (nat_of_ascii c + 32)
  else c.

(** [toLowerCase] on the letters A to Z. *)
Fixpoint toLowerCase (s : string) : string :=
  match s with
  | EmptyString => EmptyString
  | String c rest => String (toLowerCase_char c) (toLowerCase rest)
  end.

(** A submission without bank details; its [status] is not part of
    the schema. *)
Definition submission : Json :=
  JObject
    [ ("application",
       JObject
         [ ("reason", JString "Rent arrears after losing my job");
           ("amountRequested", JString "250.00");
           ("currency", JString "GBP");
           ("status", JString "paid") ]) ].

(** A submission that carries an empty [bankDetailsId]. *)
Definition submission_empty_link : Json :=
  JObject
    [ ("application",
       JObject
         [ ("reason", JString "Rent arrears after losing my job");
           ("amountRequested", JString "250.00");
           ("currency", JString "GBP");
           ("bankDetailsId", JString "") ]) ].

(** A submission that refers to the bank details of somebody else. *)
Definition submission_foreign_link : Json :=
  JObject
    [ ("application",
       JObject
         [ ("reason", JString "Rent arrears after losing my job");
           ("amountRequested", JString "250.00");
           ("currency", JString "GBP");
           ("bankDetailsId", JString "id-0") ]) ].

(** A UK account without a sort code. *)
Definition uk_account_without_sort_code : Json :=
  JObject
    [ ("country", JString "UK");
      ("bankName", JString "Barclays");
      ("accountNumber", JString "12345678") ].

(** The body the dashboard sends for an action on a row. *)
Definition set_status (st : Status) : Json :=
  JObject [ ("status", JString (statusName st)) ].


Definition submit : Request := PostApplications "alice" submission.
Definition add_account : Request := PostBankDetails "alice" uk_account_without_sort_code.
Definition mark (st : Status) : Request := PatchAdminApplication "bob" "id-0" (set_status st).

(** An update that names every property of a row. *)
Definition sweeping_update : PartialApplication.t :=
  PartialApplication.mk
    (Some "id-9") (Some "mallory") (Some None) (Some "Another reason for the request")
    (Some "999999.00") (Some "USD") (Some (Some ["passport.pdf"]))
    (Some paid) (Some (Some "Settled")) (Some (Some "mallory")) (Some (Some 7%Z))
    (Some (Some 8%Z)) (Some (Some "999999.00")) (Some (Some 9%Z)) (Some (Some 10%Z)).

(** A row of the dashboard with a given status. *)
Definition row (id : string) (st : Status) : Admin.ApplicationWithUser :=
  Admin.mkApplicationWithUser
    (Application.mk id "alice" None "Rent arrears after losing my job" "250.00" "GBP"
       None st None None None None None None None)
    (Some (Admin.mkUser "alice" (Some "alice@example.org") (Some "Alice") None))
    None.

End Demo.

(** More sample data: a submission that brings its bank details, the body
    of a profile, and the fields of the form for a US account. *)
Module Sample.

Definition uk_account : Json :=
  JObject
    [ ("country", JString "UK");
      ("bankName", JString "Barclays");
      ("accountNumber", JString "12345678");
      ("sortCode", JString "20-00-00");
      ("accountHolderName", JString "A Example") ].

Definition submission_with_account : Json :=
  JObject
    [ ("application",
       JObject
         [ ("reason", JString "Rent arrears after losing my job");
           ("amountRequested", JString "250.00");
           ("currency", JString "GBP") ]);
      ("bankDetails", uk_account) ].

Definition submit_with_account : Request :=
  PostApplications "alice" submission_with_account.



(** The body of a profile; [role] is not part of the schema. *)
Definition profile_body : Json :=
  JObject
    [ ("fullName", JString "Alice Example");
      ("country", JString "UK");
      ("phone", JString "01234 567890");
      ("role", JString "admin") ].

Definition us_account_form : list (string * Json) :=
  [ ("country", JString "USA");
    ("bankName", JString "Chase");
    ("accountNumber", JString "000123456789");
    ("routingNumber", JString "021000021") ].

Definition users : gmap string Admin.User :=
  {[ "alice" := Admin.mkUser "alice" (Some "alice@example.org") (Some "Alice") None ]}.

End Sample.

(** ** The server *)

Section Server.

(** The value of the n-th reading of the clock, by [new Date()] or by the
    column default [now()]. *)
Variable clock : nat -> Timestamp.

(** The n-th identifier produced by the column default
    [gen_random_uuid()]. *)
Variable gen_random_uuid : nat -> string.

(** The refinement of [amountRequested],
    [!isNaN(parseFloat(val)) && parseFloat(val) > 0]: a test on a
    floating-point number, left abstract. *)
Variable positiveAmount : string -> bool.

Definition now : M Timestamp :=
  fun s =>
    (Returned (clock (tick s)),
     mkState (bankDetails s) (applications s) (S (tick s)) (serial s)).

Definition new_uuid : M string :=
  fun s =>
    (Returned (gen_random_uuid (serial s)),
     mkState (bankDetails s) (applications s) (tick s) (S (serial s))).

Definition write_bankDetails (t : gmap string BankDetails.t) : M unit :=
  fun s => (Returned tt, mkState t (applications s) (tick s) (serial s)).

Definition write_applications (t : gmap string Application.t) : M unit :=
  fun s => (Returned tt, mkState (bankDetails s) t (tick s) (serial s)).

(** *** Schemas that use the refinement *)

(** [z.string().refine(...)] *)
Definition z_string_refine (v : option Json) : Parsed string :=
  match v with
  | Some (JString s) => if positiveAmount s then Valid s else Invalid
  | _ => Invalid
  end.

(** [applicationSchema] of the server *)
Definition applicationSchema (v : option Json) : Parsed ApplicationData.t :=
  match v with
  | Some (JObject o) =>
      reason <~ z_string_min 20 (property "reason" o) ;;
      amountRequested <~ z_string_refine (property "amountRequested" o) ;;
      currency <~ z_enum_currency (property "currency" o) ;;
      bankDetailsId <~ z_string_optional_nullable (property "bankDetailsId" o) ;;
      Valid (ApplicationData.mk reason amountRequested currency bankDetailsId)
  | _ => Invalid
  end.

(** [applicationSubmitSchema] *)
Definition applicationSubmitSchema (body : Json)
  : Parsed (ApplicationData.t * option BankDetailsData.t) :=
  match body with
  | JObject o =>
      application <~ applicationSchema (property "application" o) ;;
      bankData <~ bankDetailsSchema_optional (property "bankDetails" o) ;;
      Valid (application, bankData)
  | _ => Invalid
  end.

(** *** Persistence adapter (storage.ts) *)

Definition getBankDetailsById (id : string) : M (option BankDetails.t) :=
  fun s => (Returned (bankDetails s !! id), s).

(** The insert takes its [id], [created_at] and [updated_at] from the
    column defaults; a duplicate primary key is an error of the
    database. *)
Definition bankDetails_values (id : string) (t : Timestamp) (data : NewBankDetails.t)
  : BankDetails.t :=
  BankDetails.mk id
    (NewBankDetails.userId data)
    (NewBankDetails.country data)
    (NewBankDetails.bankName data)
    (NewBankDetails.accountNumber data)
    (or_null (NewBankDetails.sortCode data))
    (or_null (NewBankDetails.routingNumber data))
    (or_null (NewBankDetails.accountHolderName data))
    (if truthy (NewBankDetails.accountHolderName data) then "verified" else "pending")
    (Some t) (Some t).

Definition createBankDetails (data : NewBankDetails.t) : M BankDetails.t :=
  id <- new_uuid ;;
  t <- now ;;
  s <- get ;;
  match bankDetails s !! id with
  | Some _ => throw DbError
  | None =>
      let created := bankDetails_values id t data in
      _ <- write_bankDetails (<[id := created]> (bankDetails s)) ;;
      ret created
  end.

(** [delete ... where id = id and user_id = userId]; always answers
    [true].  [applications.bank_details_id] references [bank_details.id]
    with no [onDelete] action: deleting a row that an application points
    to is an error of the database. *)
Definition deleteBankDetails (id userId : string) : M bool :=
  s <- get ;;
  match bankDetails s !! id with
  | Some b =>
      if decide (BankDetails.userId b = userId) then
        if decide (map_Exists (fun _ a => Application.bankDetailsId a = Some id)
                     (applications s))
        then throw DbError
        else
          _ <- write_bankDetails (delete id (bankDetails s)) ;;
          ret true
      else ret true
  | None => ret true
  end.

Definition getApplicationById (id : string) : M (option Application.t) :=
  fun s => (Returned (applications s !! id), s).

(** Whether a value of [bank_details_id] satisfies its foreign key. *)
Definition references_bankDetails (s : State) (b : option string) : bool :=
  match b with
  | None => true
  | Some i => bool_decide (is_Some (bankDetails s !! i))
  end.

(** The values of the insert: the status is the literal ["pending"], the
    columns of the review and of the payment are left to their default,
    [null]. *)
Definition application_values (id : string) (t : Timestamp) (data : NewApplication.t)
  : Application.t :=
  Application.mk id
    (NewApplication.userId data)
    (or_null (NewApplication.bankDetailsId data))
    (NewApplication.reason data)
    (NewApplication.amountRequested data)
    (NewApplication.currency data)
    (array_or_null (NewApplication.supportingDocuments data))
    pending
    None None None None None
    (Some t) (Some t).

Definition createApplication (data : NewApplication.t) : M Application.t :=
  id <- new_uuid ;;
  t <- now ;;
  s <- get ;;
  match applications s !! id with
  | Some _ => throw DbError
  | None =>
      let created := application_values id t data in
      if references_bankDetails s (Application.bankDetailsId created) then
        _ <- write_applications (<[id := created]> (applications s)) ;;
        ret created
      else throw DbError
  end.

(** The row [a] after [set(updateData)], where [updateData] holds
    [updatedAt] and those of the six properties of [data] that are not
    [undefined]. *)
Definition set_updateData (updatedAt : Timestamp) (data : PartialApplication.t)
    (a : Application.t) : Application.t :=
  Application.mk
    (Application.id a)
    (Application.userId a)
    (Application.bankDetailsId a)
    (Application.reason a)
    (Application.amountRequested a)
    (Application.currency a)
    (Application.supportingDocuments a)
    (default (Application.status a) (PartialApplication.status data))
    (default (Application.adminNotes a) (PartialApplication.adminNotes data))
    (default (Application.reviewedBy a) (PartialApplication.reviewedBy data))
    (default (Application.reviewedAt a) (PartialApplication.reviewedAt data))
    (default (Application.paidAt a) (PartialApplication.paidAt data))
    (default (Application.paidAmount a) (PartialApplication.paidAmount data))
    (Application.createdAt a)
    (Some updatedAt).

Definition updateApplication (id : string) (data : PartialApplication.t)
  : M (option Application.t) :=
  updatedAt <- now ;;
  s <- get ;;
  match applications s !! id with
  | Some a =>
      let updated := set_updateData updatedAt data a in
      _ <- write_applications (<[id := updated]> (applications s)) ;;
      ret (Some updated)
  | None => ret None
  end.

(** *** Routes

    Each handler receives the authenticated caller [req.user.claims.sub]
    (the [isAuthenticated] middleware lets no other request through), the
    route parameter and the body.  An early [return res...] inside the
    [try] block is the [inr] of a sum. *)

(** The [catch] clause shared by the routes that parse a body. *)
Definition catch_errors (failure : string) (e : Exn) : Response :=
  match e with
  | ZodError => mkResponse 400 InvalidData
  | DbError => status_message 500 failure
  end.

(** [POST /api/bank-details] *)
Definition post_bank_details (userId : string) (body : Json) : Route :=
  try_catch
    (data <- parse (bankDetailsSchema (Some body)) ;;
     details <- createBankDetails
       (NewBankDetails.mk userId
          (BankDetailsData.country data)
          (BankDetailsData.bankName data)
          (BankDetailsData.accountNumber data)
          (BankDetailsData.sortCode data)
          (BankDetailsData.routingNumber data)
          (BankDetailsData.accountHolderName data)
          None) ;;
     ret (json (BankDetailsJson details)))
    (catch_errors "Failed to create bank details").

(** [DELETE /api/bank-details/:id] *)
Definition delete_bank_details (userId id : string) : Route :=
  try_catch
    (existing <- getBankDetailsById id ;;
     match existing with
     | None => ret (status_message 404 "Bank details not found")
     | Some existing =>
         if decide (BankDetails.userId existing = userId) then
           _ <- deleteBankDetails id userId ;;
           ret (json Success)
         else ret (status_message 403 "Access denied")
     end)
    (fun _ => status_message 500 "Failed to delete bank details").

(** [POST /api/applications] *)
Definition post_applications (userId : string) (body : Json) : Route :=
  try_catch
    (parsed <- parse (applicationSubmitSchema body) ;;
     let appData := fst parsed in
     let bankData := snd parsed in
     linked <-
       match bankData with
       | Some bankData =>
           details <- createBankDetails
             (NewBankDetails.mk userId
                (BankDetailsData.country bankData)
                (BankDetailsData.bankName bankData)
                (BankDetailsData.accountNumber bankData)
                (BankDetailsData.sortCode bankData)
                (BankDetailsData.routingNumber bankData)
                (BankDetailsData.accountHolderName bankData)
                None) ;;
           ret (inl (Some (BankDetails.id details)))
       | None =>
           match ApplicationData.bankDetailsId appData with
           | Some (Some existingId) =>
               if String.eqb existingId "" then ret (inl None)
               else
                 existing <- getBankDetailsById existingId ;;
                 match existing with
                 | Some existing =>
                     if decide (BankDetails.userId existing = userId) then
                       ret (inl (Some existingId))
                     else ret (inr (status_message 403 "Invalid bank details"))
                 | None => ret (inr (status_message 403 "Invalid bank details"))
                 end
           | _ => ret (inl None)
           end
       end ;;
     match linked with
     | inr response => ret response
     | inl bankDetailsId =>
         application <- createApplication
           (NewApplication.mk userId
              (ApplicationData.reason appData)
              (ApplicationData.amountRequested appData)
              (ApplicationData.currency appData)
              (Some bankDetailsId)
              None) ;;
         ret (json (ApplicationJson (Some application)))
     end)
    (catch_errors "Failed to create application").

(** [PATCH /api/admin/applications/:id] *)
Definition patch_admin_application (adminUserId id : string) (body : Json) : Route :=
  try_catch
    (parsed <- parse (updateApplicationSchema body) ;;
     let status := UpdateData.status parsed in
     let adminNotes := UpdateData.adminNotes parsed in
     existingApp <- getApplicationById id ;;
     match existingApp with
     | None => ret (status_message 404 "Application not found")
     | Some existingApp =>
         reviewedAt <- now ;;
         let updateData :=
           PartialApplication.set_reviewedAt (Some reviewedAt)
             (PartialApplication.set_reviewedBy (Some adminUserId)
                PartialApplication.empty) in
         let updateData :=
           match status with
           | Some st => PartialApplication.set_status st updateData
           | None => updateData
           end in
         let updateData :=
           match adminNotes with
           | Some notes => PartialApplication.set_adminNotes notes updateData
           | None => updateData
           end in
         updateData <-
           (if decide (status = Some paid) then
              paidAt <- now ;;
              ret (PartialApplication.set_paidAmount
                     (Some (Application.amountRequested existingApp))
                     (PartialApplication.set_paidAt (Some paidAt) updateData))
            else ret updateData) ;;
         application <- updateApplication id updateData ;;
         ret (json (ApplicationJson application))
     end)
    (catch_errors "Failed to update application").

(** *** The service as a transition system *)

Definition handler (r : Request) : Route :=
  match r with
  | PostBankDetails userId body => post_bank_details userId body
  | DeleteBankDetails userId id => delete_bank_details userId id
  | PostApplications userId body => post_applications userId body
  | PatchAdminApplication adminUserId id body => patch_admin_application adminUserId id body
  end.

Definition response_of (r : Request) (s : State) : Response := fst (handler r s).
Definition state_after (r : Request) (s : State) : State := snd (handler r s).

(** The states the service can be in: the empty database, and what a
    request makes of a state it can be in. *)
Inductive reachable : State -> Prop :=
  | reachable_initial : reachable initial
  | reachable_request (r : Request) (s : State) :
      reachable s -> reachable (state_after r s).

(** The state after a sequence of requests. *)
Definition run (rs : list Request) (s : State) : State :=
  List.fold_left (fun s r => state_after r s) rs s.

(** *** Descriptions used in the statements *)

(** The number of clock readings of an accepted admin update. *)
Definition ticks_of_update (upd : UpdateData.t) : nat :=
  if bool_decide (UpdateData.status upd = Some paid) then 3 else 2.

(** A [sortCode] that is absent, null or shorter than six characters. *)
Definition sort_code_missing (v : option (option string)) : Prop :=
  match v with
  | Some (Some sortCode) => (String.length sortCode < 6)%nat
  | _ => True
  end.

(** A row as an insert leaves it: never reviewed, never paid. *)
Definition untouched (a : Application.t) : Prop :=
  Application.status a = pending
  /\ Application.adminNotes a = None
  /\ Application.reviewedBy a = None
  /\ Application.reviewedAt a = None
  /\ Application.paidAt a = None
  /\ Application.paidAmount a = None.

(** The row that an accepted admin update, of parsed body [upd] and made in
    state [s], leaves in place of [a]: the clock is read for [reviewedAt],
    then for [paidAt] when the status asked for is [paid], then for
    [updatedAt]. *)
Definition admin_updated (s : State) (adminUserId : string) (upd : UpdateData.t)
    (a : Application.t) : Application.t :=
  let to_paid := bool_decide (UpdateData.status upd = Some paid) in
  Application.mk
    (Application.id a)
    (Application.userId a)
    (Application.bankDetailsId a)
    (Application.reason a)
    (Application.amountRequested a)
    (Application.currency a)
    (Application.supportingDocuments a)
    (default (Application.status a) (UpdateData.status upd))
    (default (Application.adminNotes a) (UpdateData.adminNotes upd))
    (Some adminUserId)
    (Some (clock (tick s)))
    (if to_paid then Some (clock (S (tick s))) else Application.paidAt a)
    (if to_paid then Some (Application.amountRequested a) else Application.paidAmount a)
    (Application.createdAt a)
    (Some (clock (if to_paid then S (S (tick s)) else S (tick s)))).

(** The properties of a row that belong to the submission. *)
Definition same_submission (a a' : Application.t) : Prop :=
  Application.id a' = Application.id a
  /\ Application.userId a' = Application.userId a
  /\ Application.reason a' = Application.reason a
  /\ Application.amountRequested a' = Application.amountRequested a
  /\ Application.currency a' = Application.currency a
  /\ Application.bankDetailsId a' = Application.bankDetailsId a
  /\ Application.supportingDocuments a' = Application.supportingDocuments a
  /\ Application.createdAt a' = Application.createdAt a.




(** *** The routes that read *)

(** [getBankDetails] *)
Definition getBankDetails (userId : string) : M (list BankDetails.t) :=
  fun s =>
    (Returned (filter (fun b => BankDetails.userId b = userId) (rows (bankDetails s))), s).

(** [getApplications] *)
Definition getApplications (userId : string) : M (list Application.t) :=
  fun s =>
    (Returned
       (merge_sort newest_first
          (filter (fun a => Application.userId a = userId) (rows (applications s)))),
     s).

(** The bank details joined to a row of the admin listing:
    [if (app.bankDetailsId)], then the first row with that identifier. *)
Definition joined_bankDetails (s : State) (app : Application.t) : option BankDetails.t :=
  match Application.bankDetailsId app with
  | Some i => if String.eqb i "" then None else bankDetails s !! i
  | None => None
  end.

(** [getAllApplicationsWithDetails]; [users] is the table of the
    authentication integration. *)
Definition getAllApplicationsWithDetails (users : gmap string Admin.User)
  : M (list Admin.ApplicationWithUser) :=
  fun s =>
    (Returned
       ((fun app =>
           Admin.mkApplicationWithUser app (users !! Application.userId app)
             (joined_bankDetails s app))
          <$> merge_sort newest_first (rows (applications s))),
     s).

(** [GET /api/bank-details] *)
Definition get_bank_details (userId : string) : State -> Answer (list BankDetails.t) * State :=
  try_read
    (details <- getBankDetails userId ;;
     ret (Json200 details))
    "Failed to fetch bank details".

(** [GET /api/applications] *)
Definition get_applications (userId : string) : State -> Answer (list Application.t) * State :=
  try_read
    (found <- getApplications userId ;;
     ret (Json200 found))
    "Failed to fetch applications".

(** [GET /api/applications/:id] *)
Definition get_application (userId id : string) : State -> Answer Application.t * State :=
  try_read
    (application <- getApplicationById id ;;
     match application with
     | None => ret (Failure 404 "Application not found")
     | Some application =>
         if decide (Application.userId application = userId) then ret (Json200 application)
         else ret (Failure 403 "Access denied")
     end)
    "Failed to fetch application".

(** [GET /api/admin/applications] *)
Definition get_admin_applications (users : gmap string Admin.User)
  : State -> Answer (list Admin.ApplicationWithUser) * State :=
  try_read
    (found <- getAllApplicationsWithDetails users ;;
     ret (Json200 found))
    "Failed to fetch applications".

(** *** Profiles *)

(** The service with the table of profiles, kept in the order of
    insertion. *)
Record Site : Type := mkSite {
  core : State;
  userProfiles : list UserProfile.t
}.

Definition initial_site : Site := mkSite initial [].

(** Computations over the site that may throw. *)
Definition MS (A : Type) : Type := Site -> Outcome A * Site.

(** A computation of the service, run inside the site. *)
Definition lift {A : Type} (m : M A) : MS A :=
  fun w =>
    match m (core w) with
    | (o, s') => (o, mkSite s' (userProfiles w))
    end.

Definition bind_site {A B : Type} (m : MS A) (k : A -> MS B) : MS B :=
  fun w =>
    match m w with
    | (Returned a, w') => k a w'
    | (Thrown e, w') => (Thrown e, w')
    end.

Definition ret_site {A : Type} (a : A) : MS A := fun w => (Returned a, w).

Notation "x <<- m ;; k" := (bind_site m (fun x => k))
  (at level 100, m at next level, right associativity).

(** The first of the rows of a user, [const [profile] = await
    db.select()...]. *)
Definition first_profile (userId : string) (profiles : list UserProfile.t)
  : option UserProfile.t :=
  head (filter (fun p => UserProfile.userId p = userId) profiles).

(** [getProfile] *)
Definition getProfile (userId : string) : MS (option UserProfile.t) :=
  fun w => (Returned (first_profile userId (userProfiles w)), w).

(** [createProfile]: the insert takes [id], [role], [created_at] and
    [updated_at] from the column defaults when they are not given; a
    duplicate primary key is an error of the database. *)
Definition createProfile (userId fullName : string) (profile : PartialUserProfile.t)
  : MS UserProfile.t :=
  id <<- lift new_uuid ;;
  t <<- lift now ;;
  fun w =>
    if decide (Exists (fun p => UserProfile.id p = id) (userProfiles w))
    then (Thrown DbError, w)
    else
      let created :=
        UserProfile.mk id userId fullName
          (column_value (PartialUserProfile.phone profile))
          (default UK (PartialUserProfile.country profile))
          (column_value (PartialUserProfile.address profile))
          (default UserProfile.beneficiary (PartialUserProfile.role profile))
          (Some t) (Some t) in
      (Returned created, mkSite (core w) (userProfiles w ++ [created])).

(** The row [p] after [set(updateData)] of [updateProfile]. *)
Definition set_profile (updatedAt : Timestamp) (profile : PartialUserProfile.t)
    (p : UserProfile.t) : UserProfile.t :=
  UserProfile.mk
    (UserProfile.id p)
    (UserProfile.userId p)
    (default (UserProfile.fullName p) (PartialUserProfile.fullName profile))
    (default (UserProfile.phone p) (PartialUserProfile.phone profile))
    (default (UserProfile.country p) (PartialUserProfile.country profile))
    (default (UserProfile.address p) (PartialUserProfile.address profile))
    (default (UserProfile.role p) (PartialUserProfile.role profile))
    (UserProfile.createdAt p)
    (Some updatedAt).

(** [updateProfile]: every row of the user is updated, the first one is
    returned. *)
Definition updateProfile (userId : string) (profile : PartialUserProfile.t)
  : MS (option UserProfile.t) :=
  updatedAt <<- lift now ;;
  fun w =>
    let updated :=
      (fun p =>
         if decide (UserProfile.userId p = userId) then set_profile updatedAt profile p
         else p) <$> userProfiles w in
    (Returned (first_profile userId updated), mkSite (core w) updated).

(** The parsed body as the [Partial<InsertUserProfile>] given to the
    adapter. *)
Definition profile_of_data (userId : option string) (data : ProfileData.t)
  : PartialUserProfile.t :=
  PartialUserProfile.mk userId
    (Some (ProfileData.fullName data))
    (ProfileData.phone data)
    (Some (ProfileData.country data))
    (ProfileData.address data)
    None.

Definition run_site {A : Type} (m : MS (Answer A)) (h : Exn -> Answer A)
  : Site -> Answer A * Site :=
  fun w =>
    match m w with
    | (Returned a, w') => (a, w')
    | (Thrown e, w') => (h e, w')
    end.

(** [GET /api/profile] *)
Definition get_profile (userId : string) : Site -> Answer UserProfile.t * Site :=
  run_site
    (profile <<- getProfile userId ;;
     match profile with
     | None => ret_site (Failure 404 "Profile not found")
     | Some profile => ret_site (Json200 profile)
     end)
    (fun _ => Failure 500 "Failed to fetch profile").

(** [PUT /api/profile] *)
Definition put_profile (userId : string) (body : Json)
  : Site -> Answer (option UserProfile.t) * Site :=
  run_site
    (data <<- lift (parse (profileSchema body)) ;;
     profile <<- getProfile userId ;;
     match profile with
     | Some _ =>
         updated <<- updateProfile userId (profile_of_data None data) ;;
         ret_site (Json200 updated)
     | None =>
         created <<- createProfile userId (ProfileData.fullName data)
                       (profile_of_data (Some userId) data) ;;
         ret_site (Json200 (Some created))
     end)
    (fun e =>
       match e with
       | ZodError => Failure 400 "Invalid data"
       | DbError => Failure 500 "Failed to update profile"
       end).

(** What happens on the site: a profile is put, or a request of the
    service is handled. *)
Inductive SiteRequest : Type :=
  | PutProfile (userId : string) (body : Json)
  | ServiceRequest (r : Request).

Definition site_after (r : SiteRequest) (w : Site) : Site :=
  match r with
  | PutProfile userId body => snd (put_profile userId body w)
  | ServiceRequest r => mkSite (state_after r (core w)) (userProfiles w)
  end.

Inductive reachable_site : Site -> Prop :=
  | reachable_site_initial : reachable_site initial_site
  | reachable_site_request (r : SiteRequest) (w : Site) :
      reachable_site w -> reachable_site (site_after r w).

(** *** More descriptions used in the statements *)

(** A row of applications that passed the schema of the submission. *)
Definition valid_application (a : Application.t) : Prop :=
  (20 <= String.length (Application.reason a))%nat
  /\ positiveAmount (Application.amountRequested a) = true
  /\ (Application.currency a = "GBP" \/ Application.currency a = "USD")
  /\ Application.bankDetailsId a <> Some ""
  /\ Application.supportingDocuments a = None
  /\ Application.createdAt a <> None.

(** A row of bank details that passed the schema of the server; its
    verification is what the insert derives from the account holder. *)
Definition valid_bankDetails (b : BankDetails.t) : Prop :=
  (2 <= String.length (BankDetails.bankName b))%nat
  /\ (6 <= String.length (BankDetails.accountNumber b))%nat
  /\ BankDetails.sortCode b <> Some ""
  /\ BankDetails.routingNumber b <> Some ""
  /\ BankDetails.accountHolderName b <> Some ""
  /\ BankDetails.isVerified b
     = match BankDetails.accountHolderName b with
       | Some _ => "verified"
       | None => "pending"
       end
  /\ BankDetails.createdAt b <> None
  /\ BankDetails.updatedAt b = BankDetails.createdAt b.

(** The table of bank details in [s'] is the one of [s], or the one of [s]
    with one more row, valid and owned by [userId], under an identifier that
    was free. *)
Definition bankDetails_grow (userId : string) (s s' : State) : Prop :=
  bankDetails s' = bankDetails s
  \/ exists b,
       bankDetails s !! BankDetails.id b = None
       /\ bankDetails s' = <[BankDetails.id b := b]> (bankDetails s)
       /\ BankDetails.userId b = userId
       /\ valid_bankDetails b.

(** The bank details an application refers to exist and belong to the
    applicant. *)
Definition linked_to_own_bankDetails (s : State) (a : Application.t) : Prop :=
  forall i,
    Application.bankDetailsId a = Some i ->
    exists b,
      bankDetails s !! i = Some b
      /\ BankDetails.userId b = Application.userId a.

(** Every row is stored under its identifier and is valid, and every
    application is linked to bank details of its owner, if to any. *)
Definition consistent (s : State) : Prop :=
  (forall k a,
     applications s !! k = Some a ->
     Application.id a = k /\ valid_application a /\ linked_to_own_bankDetails s a)
  /\ (forall k b,
        bankDetails s !! k = Some b ->
        BankDetails.id b = k /\ valid_bankDetails b).

(** Some application refers to the bank details [id]. *)
Definition referenced (s : State) (id : string) : Prop :=
  map_Exists (fun _ a => Application.bankDetailsId a = Some id) (applications s).

(** *** The routes in closed form *)

(** Section variables that a statement does not mention stay out of its
    proof. *)
Ltac clear_unused :=
  try clear positiveAmount; try clear gen_random_uuid; try clear clock.

Ltac run_route :=
  unfold try_catch, bind, parse, ret, throw, get, now, new_uuid,
    write_bankDetails, write_applications, getBankDetailsById,
    getApplicationById; simpl.

(** Case analysis over every branch of a route. *)
Ltac route_cases :=
  run_route; repeat (case_match; simpl in *; simplify_eq); simpl.

Lemma patch_admin_application_invalid adminUserId id body s :
  updateApplicationSchema body = Invalid ->
  patch_admin_application adminUserId id body s = (mkResponse 400 InvalidData, s).
Proof using Type.
  clear_unused.
  intros Hbody. unfold patch_admin_application. run_route. now rewrite Hbody.
Qed.

Lemma patch_admin_application_missing adminUserId id body upd s :
  updateApplicationSchema body = Valid upd ->
  applications s !! id = None ->
  patch_admin_application adminUserId id body s
  = (status_message 404 "Application not found", s).
Proof using Type.
  clear_unused.
  intros Hbody Hrow. unfold patch_admin_application. run_route.
  rewrite Hbody. simpl. now rewrite Hrow.
Qed.

Lemma patch_admin_application_found adminUserId id body upd a s :
  updateApplicationSchema body = Valid upd ->
  applications s !! id = Some a ->
  patch_admin_application adminUserId id body s
  = (json (ApplicationJson (Some (admin_updated s adminUserId upd a))),
     mkState (bankDetails s)
       (<[id := admin_updated s adminUserId upd a]> (applications s))
       (ticks_of_update upd + tick s) (serial s)).
Proof using Type.
  clear_unused.
  intros Hbody Hrow. unfold patch_admin_application. run_route.
  rewrite Hbody. simpl. rewrite Hrow.
  destruct upd as [[st|] notes]; simpl.
  - destruct (decide (Some st = Some paid)) as [Heq|Hne].
    + injection Heq as ->. unfold updateApplication. run_route. rewrite Hrow.
      destruct notes; reflexivity.
    + unfold updateApplication. run_route. rewrite Hrow.
      unfold admin_updated, ticks_of_update. simpl.
      rewrite bool_decide_eq_false_2 by exact Hne.
      destruct notes; reflexivity.
  - unfold updateApplication. run_route. rewrite Hrow.
    destruct notes; reflexivity.
Qed.

(** *** What each route does to the two tables *)

Lemma post_bank_details_applications userId body s :
  applications (snd (post_bank_details userId body s)) = applications s.
Proof using Type.
  clear_unused. unfold post_bank_details, createBankDetails. route_cases; reflexivity.
Qed.

Lemma delete_bank_details_applications userId id s :
  applications (snd (delete_bank_details userId id s)) = applications s.
Proof using Type.
  clear_unused. unfold delete_bank_details, deleteBankDetails. route_cases; reflexivity.
Qed.


Lemma post_applications_keeps userId body s id a :
  applications s !! id = Some a ->
  applications (snd (post_applications userId body s)) !! id = Some a.
Proof using Type.
  clear_unused.
  unfold post_applications, createBankDetails, createApplication. route_cases; auto.
  all: intros Hrow; rewrite lookup_insert_ne; [exact Hrow | congruence].
Qed.

Lemma patch_admin_application_bankDetails adminUserId id body s :
  bankDetails (snd (patch_admin_application adminUserId id body s)) = bankDetails s.
Proof using Type.
  clear_unused.
  destruct (updateApplicationSchema body) as [upd|] eqn:Hbody.
  - destruct (applications s !! id) as [a|] eqn:Hrow.
    + now rewrite (patch_admin_application_found _ _ _ _ _ _ Hbody Hrow).
    + now rewrite (patch_admin_application_missing _ _ _ _ _ Hbody Hrow).
  - now rewrite (patch_admin_application_invalid _ _ _ _ Hbody).
Qed.

Lemma post_bank_details_keeps userId body s j b :
  bankDetails s !! j = Some b ->
  bankDetails (snd (post_bank_details userId body s)) !! j = Some b.
Proof using Type.
  clear_unused.
  unfold post_bank_details, createBankDetails. route_cases; auto.
  intros Hrow; rewrite lookup_insert_ne; [exact Hrow | congruence].
Qed.

Lemma post_applications_keeps_bankDetails userId body s j b :
  bankDetails s !! j = Some b ->
  bankDetails (snd (post_applications userId body s)) !! j = Some b.
Proof using Type.
  clear_unused.
  unfold post_applications, createBankDetails, createApplication. route_cases; auto.
  all: intros Hrow; rewrite lookup_insert_ne; [exact Hrow | congruence].
Qed.


(** A row stays in the table: no route deletes an application. *)
Lemma state_after_keeps_row r s id a :
  applications s !! id = Some a ->
  exists a', applications (state_after r s) !! id = Some a'.
Proof using Type.
  clear_unused.
  unfold state_after. destruct r as [u b|u i|u b|u i b]; simpl; intros Ha.
  - rewrite post_bank_details_applications; eauto.
  - rewrite delete_bank_details_applications; eauto.
  - eauto using post_applications_keeps.
  - destruct (updateApplicationSchema b) as [upd|] eqn:Hbody.
    + destruct (applications s !! i) as [a0|] eqn:Hrow.
      * rewrite (patch_admin_application_found _ _ _ _ _ _ Hbody Hrow). simpl.
        destruct (decide (i = id)) as [->|Hne].
        -- rewrite lookup_insert_eq; eauto.
        -- rewrite lookup_insert_ne; eauto.
      * rewrite (patch_admin_application_missing _ _ _ _ _ Hbody Hrow); eauto.
    + rewrite (patch_admin_application_invalid _ _ _ _ Hbody); eauto.
Qed.


Lemma reachable_run rs s : reachable s -> reachable (run rs s).
Proof using Type.
  clear_unused.
  revert s. induction rs as [|r rs IH]; intros s Hs; simpl; [exact Hs|].
  apply IH. now constructor.
Qed.

(** *** The review and payment stamps *)

Lemma admin_updated_status s adminUserId upd a :
  Application.status (admin_updated s adminUserId upd a)
  = default (Application.status a) (UpdateData.status upd).
Proof using Type. clear_unused. reflexivity. Qed.



(** The dashboard offers the transitions of the table, and no other. *)
Lemma offered_actions_are_the_table current next :
  next ∈ Admin.offered_actions current
  <-> in_spec_transition_table current next = true.
Proof using Type.
  clear_unused.
  unfold in_spec_transition_table.
  rewrite bool_decide_eq_true. unfold spec_transition_table.
  destruct current, next; simpl; split; intros H;
    repeat (apply elem_of_cons in H as [H|H]; [try discriminate|]);
    try (apply elem_of_nil in H; contradiction);
    try set_solver.
Qed.

(** C3, as amended.  For every existing application and every status a
    valid body asks for, in the table of transitions or not, the admin
    update answers 200 and the status asked for is the status stored.
    The table is what the dashboard offers: the actions it shows on a row
    are the rows of the table that start at the status of the row. *)
Theorem admin_update_writes_any_status s adminUserId id body upd a requested :
  applications s !! id = Some a ->
  updateApplicationSchema body = Valid upd ->
  UpdateData.status upd = Some requested ->
  statusCode (fst (patch_admin_application adminUserId id body s)) = 200
  /\ Application.status
       <$> applications (snd (patch_admin_application adminUserId id body s)) !! id
     = Some requested
  /\ (forall current next,
        next ∈ Admin.offered_actions current
        <-> in_spec_transition_table current next = true).
Proof using Type.
  clear_unused.
  intros Ha Hbody Hst.
  rewrite (patch_admin_application_found _ _ _ _ _ _ Hbody Ha). simpl.
  rewrite lookup_insert_eq. simpl. rewrite Hst. simpl.
  split; [reflexivity|]. split; [reflexivity|].
  apply offered_actions_are_the_table.
Qed.

(** C4.  An admin update of an existing application whose body asks for
    [paid] answers with the updated row, on which [paidAt] is the reading
    of the clock made for it during the request (after the one for
    [reviewedAt], before the one for [updatedAt]) and [paidAmount] is the
    [amountRequested] of the application, which the update leaves as it
    is.  Whatever the body of an admin update holds, the [paidAmount] it
    leaves is the previous one or the [amountRequested] of the
    application. *)
Theorem mark_paid_records_requested_amount s adminUserId id body upd a :
  applications s !! id = Some a ->
  updateApplicationSchema body = Valid upd ->
  UpdateData.status upd = Some paid ->
  (exists a',
     fst (patch_admin_application adminUserId id body s) = json (ApplicationJson (Some a'))
     /\ applications (snd (patch_admin_application adminUserId id body s)) !! id = Some a'
     /\ Application.status a' = paid
     /\ Application.reviewedAt a' = Some (clock (tick s))
     /\ Application.paidAt a' = Some (clock (S (tick s)))
     /\ Application.updatedAt a' = Some (clock (S (S (tick s))))
     /\ Application.paidAmount a' = Some (Application.amountRequested a)
     /\ Application.amountRequested a' = Application.amountRequested a)
  /\ (forall anyUserId anyBody a',
        applications (snd (patch_admin_application anyUserId id anyBody s)) !! id = Some a' ->
        Application.paidAmount a' = Application.paidAmount a
        \/ Application.paidAmount a' = Some (Application.amountRequested a)).
Proof using Type.
  clear_unused.
  intros Ha Hbody Hst. split.
  - exists (admin_updated s adminUserId upd a).
    rewrite (patch_admin_application_found _ _ _ _ _ _ Hbody Ha). simpl.
    rewrite lookup_insert_eq. unfold admin_updated. rewrite Hst. simpl.
    repeat split; reflexivity.
  - intros u b a' Ha'.
    destruct (updateApplicationSchema b) as [upd'|] eqn:Hb.
    + rewrite (patch_admin_application_found _ _ _ _ _ _ Hb Ha) in Ha'. simpl in Ha'.
      rewrite lookup_insert_eq in Ha'. injection Ha' as <-.
      unfold admin_updated. simpl. case_bool_decide; auto.
    + rewrite (patch_admin_application_invalid _ _ _ _ Hb) in Ha'. simpl in Ha'.
      left. congruence.
Qed.

(** *** Creation *)

(** C5.  Whatever the body of [POST /api/applications] holds, when the
    answer is 200 it carries the row just inserted, whose status is
    [pending]; with any other answer the table of applications is as it
    was. *)
Theorem created_application_is_pending userId body s :
  (statusCode (fst (post_applications userId body s)) = 200 ->
     exists a,
       payload (fst (post_applications userId body s)) = ApplicationJson (Some a)
       /\ Application.status a = pending
       /\ Application.userId a = userId
       /\ applications s !! Application.id a = None
       /\ applications (snd (post_applications userId body s)) !! Application.id a
          = Some a)
  /\ (statusCode (fst (post_applications userId body s)) <> 200 ->
        applications (snd (post_applications userId body s)) = applications s).
Proof using Type.
  clear_unused.
  unfold post_applications, createBankDetails, createApplication, catch_errors.
  route_cases; split; try discriminate; try congruence; try reflexivity; intros _.
  all: eexists; repeat split; simpl; try eassumption; try apply lookup_insert_eq.
Qed.

(** *** Bank details *)

Lemma delete_bank_details_removes userId id s j b :
  bankDetails s !! j = Some b ->
  bankDetails (snd (delete_bank_details userId id s)) !! j = None ->
  j = id /\ BankDetails.userId b = userId.
Proof using Type.
  clear_unused.
  unfold delete_bank_details, deleteBankDetails. route_cases; try congruence.
  intros Hb [->|Hnone]%lookup_delete_None; [|congruence].
  split; congruence.
Qed.

(** C7.  [DELETE /api/bank-details/:id] answers 404 and changes
    nothing when no row has the identifier, and answers 403 and changes
    nothing when the row belongs to somebody else.  A row of bank details
    that a request removes is removed by a [DELETE] of that row made by
    its owner. *)
Theorem only_the_owner_deletes_bank_details userId id s :
  (bankDetails s !! id = None ->
     delete_bank_details userId id s = (status_message 404 "Bank details not found", s))
  /\ (forall b,
        bankDetails s !! id = Some b ->
        BankDetails.userId b <> userId ->
        delete_bank_details userId id s = (status_message 403 "Access denied", s))
  /\ (forall r j b,
        bankDetails s !! j = Some b ->
        bankDetails (state_after r s) !! j = None ->
        r = DeleteBankDetails (BankDetails.userId b) j).
Proof using Type.
  clear_unused.
  split; [|split].
  - intros Hnone. unfold delete_bank_details. run_route. now rewrite Hnone.
  - intros b Hb Hne. unfold delete_bank_details. run_route. rewrite Hb.
    now destruct (decide (BankDetails.userId b = userId)).
  - intros r j b Hb. unfold state_after.
    destruct r as [u body|u i|u body|u i body]; simpl; intros Hgone.
    + now rewrite (post_bank_details_keeps u body s j b Hb) in Hgone.
    + destruct (delete_bank_details_removes u i s j b Hb Hgone) as [-> ->].
      reflexivity.
    + now rewrite (post_applications_keeps_bankDetails u body s j b Hb) in Hgone.
    + rewrite patch_admin_application_bankDetails in Hgone. congruence.
Qed.

Lemma present_with_length_short n (v : string) :
  (String.length v < n)%nat -> Apply.present_with_length n (Some v) = false.
Proof using Type.
  clear_unused. intros Hshort. unfold Apply.present_with_length.
  apply Nat.leb_gt in Hshort. rewrite Hshort. apply andb_false_r.
Qed.

(** The fields of an accepted body of [POST /api/bank-details]. *)
Lemma bankDetailsSchema_fields fields data :
  bankDetailsSchema (Some (JObject fields)) = Valid data ->
  z_enum_country (property "country" fields) = Valid (BankDetailsData.country data)
  /\ z_string_min 2 (property "bankName" fields) = Valid (BankDetailsData.bankName data)
  /\ z_string_min 6 (property "accountNumber" fields)
     = Valid (BankDetailsData.accountNumber data)
  /\ z_string_optional_nullable (property "sortCode" fields)
     = Valid (BankDetailsData.sortCode data).
Proof using Type.
  clear_unused. unfold bankDetailsSchema.
  destruct (z_enum_country _); simpl; [|discriminate].
  destruct (z_string_min 2 _); simpl; [|discriminate].
  destruct (z_string_min 6 _); simpl; [|discriminate].
  destruct (z_string_optional_nullable (property "sortCode" fields));
    simpl; [|discriminate].
  destruct (z_string_optional_nullable (property "routingNumber" fields));
    simpl; [|discriminate].
  destruct (z_string_optional_nullable (property "accountHolderName" fields));
    simpl; [|discriminate].
  intros [= <-]. simpl. auto.
Qed.

(** C6, on the server.  A body for a UK account whose [sortCode] is absent,
    null or shorter than six characters, and which the schema of the server
    accepts, is stored by [POST /api/bank-details] (the identifier drawn
    being free) with the sort code it came with, null when it was absent or
    empty; the schema of the request form refuses the same body. *)
Theorem uk_account_without_sort_code_is_stored userId body data s :
  bankDetailsSchema (Some body) = Valid data ->
  BankDetailsData.country data = UK ->
  sort_code_missing (BankDetailsData.sortCode data) ->
  bankDetails s !! gen_random_uuid (serial s) = None ->
  Apply.bankDetailsSchema body = Invalid
  /\ exists b,
       fst (post_bank_details userId body s) = json (BankDetailsJson b)
       /\ bankDetails (snd (post_bank_details userId body s)) !! BankDetails.id b = Some b
       /\ BankDetails.userId b = userId
       /\ BankDetails.country b = UK
       /\ BankDetails.sortCode b = or_null (BankDetailsData.sortCode data).
Proof using Type.
  clear_unused.
  intros Hbody Hcountry Hsort Hfree. split.
  - destruct body as [| | | |items|fields]; try discriminate Hbody.
    destruct (bankDetailsSchema_fields _ _ Hbody) as (Hc & Hbn & Han & Hsc).
    unfold Apply.bankDetailsSchema. rewrite Hc, Hbn, Han, Hcountry. simpl.
    destruct (property "sortCode" fields) as [[| | |sc| |]|]; simpl;
      try reflexivity;
      destruct (Apply.z_string_optional (property "routingNumber" fields));
      cbn [parsed_bind]; try reflexivity.
    simpl in Hsc. injection Hsc as Hsc. rewrite <- Hsc in Hsort.
    change (Apply.routing_information _) with (Apply.present_with_length 6 (Some sc)).
    now rewrite (present_with_length_short 6 sc Hsort).
  - unfold post_bank_details, try_catch, bind. rewrite Hbody.
    unfold createBankDetails. run_route. rewrite Hfree. simpl.
    eexists. split; [reflexivity|]. rewrite lookup_insert_eq.
    repeat split; simpl; assumption.
Qed.

(** *** The frame of an update *)

Lemma same_submission_refl a : same_submission a a.
Proof using Type. clear_unused. unfold same_submission. tauto. Qed.

Lemma updateApplication_row id data s j a :
  applications s !! j = Some a ->
  exists a',
    applications (snd (updateApplication id data s)) !! j = Some a'
    /\ same_submission a a'
    /\ (j <> id -> a' = a).
Proof using Type.
  clear_unused.
  intros Ha. unfold updateApplication. run_route.
  destruct (applications s !! id) as [a0|] eqn:Hrow; simpl.
  - destruct (decide (id = j)) as [->|Hne].
    + rewrite lookup_insert_eq. assert (a0 = a) as -> by congruence.
      eexists. split; [reflexivity|]. split; [|congruence].
      unfold same_submission. simpl. tauto.
    + rewrite lookup_insert_ne by exact Hne.
      exists a. auto using same_submission_refl.
  - exists a. auto using same_submission_refl.
Qed.

(** C9.  [updateApplication] keeps every row in the table and, on each
    of them, the identifier, the owner, the reason, the amount requested,
    the currency, the bank details referred to, the supporting documents and
    the date of creation, whatever [data] holds; rows other than [id]
    are not changed at all, no row is added and the bank details are as
    they were.  The same holds of the rows after
    [PATCH /api/admin/applications/:id]. *)
Theorem update_keeps_the_submission id data s :
  (forall j a,
     applications s !! j = Some a ->
     exists a',
       applications (snd (updateApplication id data s)) !! j = Some a'
       /\ same_submission a a'
       /\ (j <> id -> a' = a))
  /\ (forall j,
        applications s !! j = None ->
        applications (snd (updateApplication id data s)) !! j = None)
  /\ bankDetails (snd (updateApplication id data s)) = bankDetails s
  /\ (forall adminUserId body j a,
        applications s !! j = Some a ->
        exists a',
          applications (snd (patch_admin_application adminUserId id body s)) !! j
          = Some a'
          /\ same_submission a a'
          /\ (j <> id -> a' = a)).
Proof using Type.
  clear_unused.
  split; [|split; [|split]].
  - intros j a. apply updateApplication_row.
  - intros j Hnone. unfold updateApplication. run_route.
    destruct (applications s !! id) as [a0|] eqn:Hrow; simpl; [|exact Hnone].
    rewrite lookup_insert_ne; [exact Hnone | congruence].
  - unfold updateApplication. run_route.
    destruct (applications s !! id); reflexivity.
  - intros u body j a Ha.
    destruct (updateApplicationSchema body) as [upd|] eqn:Hbody.
    + destruct (applications s !! id) as [a0|] eqn:Hrow.
      * rewrite (patch_admin_application_found _ _ _ _ _ _ Hbody Hrow). simpl.
        destruct (decide (id = j)) as [->|Hne].
        -- rewrite lookup_insert_eq. assert (a0 = a) as -> by congruence.
           eexists. split; [reflexivity|]. split; [|congruence].
           unfold same_submission. simpl. tauto.
        -- rewrite lookup_insert_ne by exact Hne.
           exists a. auto using same_submission_refl.
      * rewrite (patch_admin_application_missing _ _ _ _ _ Hbody Hrow). simpl.
        exists a. auto using same_submission_refl.
    + rewrite (patch_admin_application_invalid _ _ _ _ Hbody). simpl.
      exists a. auto using same_submission_refl.
Qed.

(** *** Linking existing bank details *)

(** C10, as amended.  A body of [POST /api/applications] that the schema
    accepts, that holds no [bankDetails] and whose [bankDetailsId] is a
    string other than the empty one, naming no row or the row of
    somebody else, is answered 403 and the state is as it was. *)
Theorem foreign_bank_details_refused userId body appData existingId s :
  applicationSubmitSchema body = Valid (appData, None) ->
  ApplicationData.bankDetailsId appData = Some (Some existingId) ->
  existingId <> "" ->
  (forall b, bankDetails s !! existingId = Some b -> BankDetails.userId b <> userId) ->
  post_applications userId body s = (status_message 403 "Invalid bank details", s).
Proof using Type.
  clear_unused.
  intros Hbody Hlink Hne Hforeign. unfold post_applications. run_route.
  rewrite Hbody. simpl. rewrite Hlink.
  apply String.eqb_neq in Hne. rewrite Hne.
  destruct (bankDetails s !! existingId) as [b|] eqn:Hb; simpl; [|reflexivity].
  destruct (decide (BankDetails.userId b = userId)) as [Heq|_]; [|reflexivity].
  now destruct (Hforeign b eq_refl).
Qed.
(** *** What the schemas let through *)

Lemma z_string_min_valid n v s :
  z_string_min n v = Valid s -> (n <= String.length s)%nat.
Proof using Type.
  clear_unused. unfold z_string_min.
  destruct v as [[| | |s'| |]|]; try discriminate.
  destruct (n <=? String.length s')%nat eqn:Hlen; [|discriminate].
  intros [= <-]. now apply Nat.leb_le.
Qed.

Lemma z_enum_currency_valid v c :
  z_enum_currency v = Valid c -> c = "GBP" \/ c = "USD".
Proof using Type.
  clear_unused. unfold z_enum_currency.
  destruct v as [[| | |s| |]|]; try discriminate.
  destruct (String.eqb s "GBP") eqn:Hgbp; simpl.
  - intros [= <-]. left. now apply String.eqb_eq.
  - destruct (String.eqb s "USD") eqn:Husd; [|discriminate].
    intros [= <-]. right. now apply String.eqb_eq.
Qed.

Lemma applicationSchema_valid v data :
  applicationSchema v = Valid data ->
  (20 <= String.length (ApplicationData.reason data))%nat
  /\ positiveAmount (ApplicationData.amountRequested data) = true
  /\ (ApplicationData.currency data = "GBP" \/ ApplicationData.currency data = "USD").
Proof using Type.
  clear_unused. unfold applicationSchema.
  destruct v as [[| | | | |o]|]; try discriminate.
  destruct (z_string_min 20 _) as [reason|] eqn:Hreason; simpl; [|discriminate].
  destruct (z_string_refine _) as [amount|] eqn:Hamount; simpl; [|discriminate].
  destruct (z_enum_currency _) as [currency|] eqn:Hcurrency; simpl; [|discriminate].
  destruct (z_string_optional_nullable _); simpl; [|discriminate].
  intros [= <-]. simpl. split; [|split].
  - eauto using z_string_min_valid.
  - revert Hamount. unfold z_string_refine.
    destruct (property "amountRequested" o) as [[| | |s| |]|]; try discriminate.
    destruct (positiveAmount s) eqn:Hpos; [|discriminate]. now intros [= <-].
  - eauto using z_enum_currency_valid.
Qed.

Lemma bankDetailsSchema_valid v data :
  bankDetailsSchema v = Valid data ->
  (2 <= String.length (BankDetailsData.bankName data))%nat
  /\ (6 <= String.length (BankDetailsData.accountNumber data))%nat.
Proof using Type.
  clear_unused. destruct v as [[| | | | |o]|]; try discriminate.
  intros (_ & Hname & Hnumber & _)%bankDetailsSchema_fields.
  eauto using z_string_min_valid.
Qed.

Lemma applicationSubmitSchema_valid body appData bankData :
  applicationSubmitSchema body = Valid (appData, bankData) ->
  applicationSchema (match body with
                     | JObject o => property "application" o
                     | _ => None
                     end) = Valid appData
  /\ forall data, bankData = Some data ->
       (2 <= String.length (BankDetailsData.bankName data))%nat
       /\ (6 <= String.length (BankDetailsData.accountNumber data))%nat.
Proof using Type.
  clear_unused. unfold applicationSubmitSchema.
  destruct body as [| | | | |o]; try discriminate.
  destruct (applicationSchema _) as [a|]; simpl; [|discriminate].
  unfold bankDetailsSchema_optional.
  destruct (property "bankDetails" o) as [v|] eqn:Hv; cbn [parsed_bind].
  - destruct (bankDetailsSchema (Some v)) as [d|] eqn:Hd; cbn [parsed_bind];
      [|discriminate].
    intros ?; simplify_eq. split; [reflexivity|]. intros data ?; simplify_eq.
    eauto using bankDetailsSchema_valid.
  - intros ?; simplify_eq. split; [reflexivity|]. discriminate.
Qed.

Lemma or_null_not_empty v : or_null v <> Some "".
Proof using Type.
  clear_unused. destruct v as [[s|]|]; simpl; try discriminate.
  destruct (String.eqb s "") eqn:Hs; [discriminate|].
  apply String.eqb_neq in Hs. congruence.
Qed.

Lemma truthy_or_null v :
  (if truthy v then "verified" else "pending")
  = match or_null v with
    | Some _ => "verified"
    | None => "pending"
    end.
Proof using Type.
  clear_unused. destruct v as [[s|]|]; simpl; try reflexivity.
  now destruct (String.eqb s "").
Qed.

Lemma bankDetails_values_valid id t userId data :
  (2 <= String.length (BankDetailsData.bankName data))%nat ->
  (6 <= String.length (BankDetailsData.accountNumber data))%nat ->
  valid_bankDetails
    (bankDetails_values id t
       (NewBankDetails.mk userId
          (BankDetailsData.country data)
          (BankDetailsData.bankName data)
          (BankDetailsData.accountNumber data)
          (BankDetailsData.sortCode data)
          (BankDetailsData.routingNumber data)
          (BankDetailsData.accountHolderName data)
          None)).
Proof using Type.
  clear_unused. intros Hname Hnumber. unfold valid_bankDetails. simpl.
  repeat split; auto using or_null_not_empty, truthy_or_null.
Qed.

(** *** The inserts in closed form *)

Lemma createBankDetails_run data s :
  createBankDetails data s
  = match bankDetails s !! gen_random_uuid (serial s) with
    | Some _ =>
        (Thrown DbError,
         mkState (bankDetails s) (applications s) (S (tick s)) (S (serial s)))
    | None =>
        (Returned (bankDetails_values (gen_random_uuid (serial s)) (clock (tick s)) data),
         mkState
           (<[gen_random_uuid (serial s) :=
                bankDetails_values (gen_random_uuid (serial s)) (clock (tick s)) data]>
              (bankDetails s))
           (applications s) (S (tick s)) (S (serial s)))
    end.
Proof using Type.
  clear_unused. unfold createBankDetails. run_route.
  now destruct (bankDetails s !! gen_random_uuid (serial s)).
Qed.

Lemma createApplication_run data s :
  createApplication data s
  = match applications s !! gen_random_uuid (serial s) with
    | Some _ =>
        (Thrown DbError,
         mkState (bankDetails s) (applications s) (S (tick s)) (S (serial s)))
    | None =>
        if references_bankDetails s (or_null (NewApplication.bankDetailsId data)) then
          (Returned (application_values (gen_random_uuid (serial s)) (clock (tick s)) data),
           mkState (bankDetails s)
             (<[gen_random_uuid (serial s) :=
                  application_values (gen_random_uuid (serial s)) (clock (tick s)) data]>
                (applications s))
             (S (tick s)) (S (serial s)))
        else
          (Thrown DbError,
           mkState (bankDetails s) (applications s) (S (tick s)) (S (serial s)))
    end.
Proof using Type.
  clear_unused. unfold createApplication. run_route.
  destruct (applications s !! gen_random_uuid (serial s)); [reflexivity|].
  unfold references_bankDetails. simpl.
  now destruct (or_null (NewApplication.bankDetailsId data)) as [i|];
    [destruct (bool_decide _)|].
Qed.

(** *** The outcomes of the routes that write *)

(** [POST /api/applications] either stores no application, and then answers
    something else than 200, or stores one new row and answers 200 with
    it. *)
Lemma post_applications_outcome userId body s :
  bankDetails_grow userId s (snd (post_applications userId body s))
  /\ ((statusCode (fst (post_applications userId body s)) <> 200
       /\ applications (snd (post_applications userId body s)) = applications s
       /\ (statusCode (fst (post_applications userId body s)) = 500
           \/ snd (post_applications userId body s) = s))
      \/ exists a,
           fst (post_applications userId body s) = json (ApplicationJson (Some a))
           /\ applications s !! Application.id a = None
           /\ applications (snd (post_applications userId body s))
              = <[Application.id a := a]> (applications s)
           /\ Application.userId a = userId
           /\ valid_application a
           /\ untouched a
           /\ linked_to_own_bankDetails (snd (post_applications userId body s)) a).
Proof using Type.
  clear_unused. unfold post_applications, try_catch, bind.
  destruct (applicationSubmitSchema body) as [[appData bankData]|] eqn:Hbody; simpl.
  2: { split; [now left|]. left. split; [discriminate|]. auto. }
  destruct (applicationSubmitSchema_valid _ _ _ Hbody) as [Happ Hbank].
  apply applicationSchema_valid in Happ as (Hreason & Hamount & Hcurrency).
  assert (Hvalid : forall k t link,
             valid_application
               (application_values k t
                  (NewApplication.mk userId (ApplicationData.reason appData)
                     (ApplicationData.amountRequested appData)
                     (ApplicationData.currency appData) (Some link) None))).
  { intros k t link. unfold valid_application. simpl.
    split; [exact Hreason|]. split; [exact Hamount|]. split; [exact Hcurrency|].
    split; [apply (or_null_not_empty (Some link))|].
    split; [reflexivity | discriminate]. }
  assert (Hnew : forall k t link,
             untouched
               (application_values k t
                  (NewApplication.mk userId (ApplicationData.reason appData)
                     (ApplicationData.amountRequested appData)
                     (ApplicationData.currency appData) (Some link) None))).
  { intros k t link. unfold untouched. simpl. tauto. }
  destruct bankData as [data|]; simpl.
  - destruct (Hbank _ eq_refl) as [Hname Hnumber].
    rewrite createBankDetails_run.
    set (b0 := bankDetails_values (gen_random_uuid (serial s)) (clock (tick s)) _).
    assert (Hb0 : valid_bankDetails b0) by now apply bankDetails_values_valid.
    destruct (bankDetails s !! gen_random_uuid (serial s)) eqn:Hfree; simpl.
    { split; [now left|]. left. split; [discriminate|]. auto. }
    rewrite createApplication_run. simpl.
    assert (Hgrow : forall s',
               bankDetails s' = <[gen_random_uuid (serial s) := b0]> (bankDetails s) ->
               bankDetails_grow userId s s').
    { intros s' Hs'. right. exists b0. auto. }
    destruct (applications s !! gen_random_uuid (S (serial s))) eqn:Hkey; simpl.
    { split; [now apply Hgrow|]. left. split; [discriminate|]. auto. }
    destruct (references_bankDetails _ _) eqn:Href; simpl.
    2: { split; [now apply Hgrow|]. left. split; [discriminate|]. auto. }
    split; [now apply Hgrow|].
    right. eexists. split; [reflexivity|]. simpl.
    split; [exact Hkey|]. split; [reflexivity|]. split; [reflexivity|].
    split; [apply Hvalid|]. split; [apply Hnew|].
    intros i. simpl. destruct (String.eqb (gen_random_uuid (serial s)) ""); [discriminate|].
    intros [= <-]. rewrite lookup_insert_eq. eauto.
  - assert (Hlinked : forall k t link,
               (forall i, link = Some i ->
                  i <> "" /\ exists b, bankDetails s !! i = Some b
                                      /\ BankDetails.userId b = userId) ->
               forall s',
                 bankDetails s' = bankDetails s ->
                 linked_to_own_bankDetails s'
                   (application_values k t
                      (NewApplication.mk userId (ApplicationData.reason appData)
                         (ApplicationData.amountRequested appData)
                         (ApplicationData.currency appData) (Some link) None))).
    { intros k t link Hlink s' Hs' i. simpl. rewrite Hs'.
      destruct link as [l|]; simpl; [|discriminate].
      destruct (Hlink l eq_refl) as (Hne & b & Hb & Hu).
      apply String.eqb_neq in Hne. rewrite Hne. intros [= <-]. eauto. }
    assert (Hno : forall i : string,
               None = Some i ->
               i <> "" /\ exists b, bankDetails s !! i = Some b
                                   /\ BankDetails.userId b = userId) by discriminate.
    destruct (ApplicationData.bankDetailsId appData) as [[existingId|]|]; simpl.
    + destruct (String.eqb existingId "") eqn:Hempty; simpl.
      * rewrite createApplication_run. simpl.
        destruct (applications s !! gen_random_uuid (serial s)) eqn:Hkey; simpl.
        { split; [now left|]. left. split; [discriminate|]. auto. }
        split; [now left|]. right. eexists. split; [reflexivity|]. simpl.
        split; [exact Hkey|]. split; [reflexivity|]. split; [reflexivity|].
        split; [apply Hvalid|]. split; [apply Hnew|]. now apply Hlinked.
      * destruct (bankDetails s !! existingId) as [b|] eqn:Hb; simpl.
        -- destruct (decide (BankDetails.userId b = userId)) as [Hu|Hu]; simpl.
           ++ rewrite createApplication_run. simpl.
              destruct (applications s !! gen_random_uuid (serial s)) eqn:Hkey; simpl.
              { split; [now left|]. left. split; [discriminate|]. auto. }
              rewrite Hempty. simpl. rewrite Hb. simpl.
              split; [now left|]. right. eexists. split; [reflexivity|]. simpl.
              split; [exact Hkey|]. split; [reflexivity|]. split; [reflexivity|].
              split; [apply Hvalid|]. split; [apply Hnew|].
              apply Hlinked; [|reflexivity]. intros i [= <-].
              apply String.eqb_neq in Hempty. eauto.
           ++ split; [now left|]. left. split; [discriminate|]. auto.
        -- split; [now left|]. left. split; [discriminate|]. auto.
    + rewrite createApplication_run. simpl.
      destruct (applications s !! gen_random_uuid (serial s)) eqn:Hkey; simpl.
      { split; [now left|]. left. split; [discriminate|]. auto. }
      split; [now left|]. right. eexists. split; [reflexivity|]. simpl.
      split; [exact Hkey|]. split; [reflexivity|]. split; [reflexivity|].
      split; [apply Hvalid|]. split; [apply Hnew|]. now apply Hlinked.
    + rewrite createApplication_run. simpl.
      destruct (applications s !! gen_random_uuid (serial s)) eqn:Hkey; simpl.
      { split; [now left|]. left. split; [discriminate|]. auto. }
      split; [now left|]. right. eexists. split; [reflexivity|]. simpl.
      split; [exact Hkey|]. split; [reflexivity|]. split; [reflexivity|].
      split; [apply Hvalid|]. split; [apply Hnew|]. now apply Hlinked.
Qed.

Lemma post_bank_details_outcome userId body s :
  applications (snd (post_bank_details userId body s)) = applications s
  /\ ((statusCode (fst (post_bank_details userId body s)) <> 200
       /\ bankDetails (snd (post_bank_details userId body s)) = bankDetails s
       /\ (statusCode (fst (post_bank_details userId body s)) = 500
           \/ snd (post_bank_details userId body s) = s))
      \/ exists b,
           fst (post_bank_details userId body s) = json (BankDetailsJson b)
           /\ bankDetails s !! BankDetails.id b = None
           /\ bankDetails (snd (post_bank_details userId body s))
              = <[BankDetails.id b := b]> (bankDetails s)
           /\ BankDetails.userId b = userId
           /\ valid_bankDetails b).
Proof using Type.
  clear_unused. split; [apply post_bank_details_applications|].
  unfold post_bank_details, try_catch, bind.
  destruct (bankDetailsSchema (Some body)) as [data|] eqn:Hbody; simpl.
  2: { left. split; [discriminate|]. auto. }
  rewrite createBankDetails_run.
  destruct (bankDetails s !! gen_random_uuid (serial s)) eqn:Hfree; simpl.
  { left. split; [discriminate|]. auto. }
  right. eexists. split; [reflexivity|]. simpl.
  split; [exact Hfree|]. split; [reflexivity|]. split; [reflexivity|].
  apply bankDetailsSchema_valid in Hbody as [? ?].
  now apply bankDetails_values_valid.
Qed.

(** What [DELETE /api/bank-details/:id] does, by the row and its use. *)
Lemma delete_bank_details_outcome userId id s :
  delete_bank_details userId id s
  = match bankDetails s !! id with
    | None => (status_message 404 "Bank details not found", s)
    | Some b =>
        if decide (BankDetails.userId b = userId) then
          if decide (referenced s id)
          then (status_message 500 "Failed to delete bank details", s)
          else (json Success,
                mkState (delete id (bankDetails s)) (applications s) (tick s) (serial s))
        else (status_message 403 "Access denied", s)
    end.
Proof using Type.
  clear_unused. unfold delete_bank_details, deleteBankDetails, referenced. run_route.
  destruct (bankDetails s !! id) as [b|] eqn:Hb; simpl; [|reflexivity].
  destruct (decide (BankDetails.userId b = userId)) as [Hu|Hu]; simpl; [|reflexivity].
  rewrite Hb. simpl. destruct (decide (BankDetails.userId b = userId)); [|contradiction].
  now destruct (decide (map_Exists _ _)).
Qed.

Lemma bankDetails_grow_lookup userId s s' j b :
  bankDetails_grow userId s s' ->
  bankDetails s !! j = Some b ->
  bankDetails s' !! j = Some b.
Proof using Type.
  clear_unused. intros [->|(b' & Hfree & -> & _)] Hb; [exact Hb|].
  rewrite lookup_insert_ne; [exact Hb | congruence].
Qed.

Lemma bankDetails_grow_consistent userId s s' :
  bankDetails_grow userId s s' ->
  (forall k b, bankDetails s !! k = Some b -> BankDetails.id b = k /\ valid_bankDetails b) ->
  forall k b, bankDetails s' !! k = Some b -> BankDetails.id b = k /\ valid_bankDetails b.
Proof using Type.
  clear_unused. intros [->|(b' & Hfree & -> & _ & Hvalid)] Hold k b; [apply Hold|].
  intros [[<- <-]|[_ ?]]%lookup_insert_Some; auto.
Qed.

Lemma linked_to_own_bankDetails_grow userId s s' a :
  bankDetails_grow userId s s' ->
  linked_to_own_bankDetails s a ->
  linked_to_own_bankDetails s' a.
Proof using Type.
  clear_unused. intros Hgrow Hlinked i Hi.
  destruct (Hlinked i Hi) as (b & Hb & Hu).
  eauto using bankDetails_grow_lookup.
Qed.

Lemma valid_application_admin_updated s adminUserId upd a :
  valid_application a -> valid_application (admin_updated s adminUserId upd a).
Proof using Type. clear_unused. unfold valid_application. simpl. tauto. Qed.

(** *** The invariant of the reachable states *)

Lemma state_after_consistent r s : consistent s -> consistent (state_after r s).
Proof using Type.
  clear_unused. intros [Happs Hbank]. unfold state_after.
  destruct r as [u body|u i|u body|u i body]; simpl.
  - destruct (post_bank_details_outcome u body s) as [Hsame Hout].
    assert (Hgrow : bankDetails_grow u s (snd (post_bank_details u body s))).
    { destruct Hout as [(_ & Hb & _)|(b & _ & Hfree & Hb & Hu & Hv)];
        [now left | right; eauto]. }
    split.
    + intros k a. rewrite Hsame. intros Ha.
      destruct (Happs k a Ha) as (? & ? & ?).
      eauto using linked_to_own_bankDetails_grow.
    + eauto using bankDetails_grow_consistent.
  - rewrite delete_bank_details_outcome.
    destruct (bankDetails s !! i) as [b|] eqn:Hb; [|now split].
    destruct (decide (BankDetails.userId b = u)); [|now split].
    destruct (decide (referenced s i)) as [|Hfree]; [now split|]. simpl. split.
    + intros k a Ha. destruct (Happs k a Ha) as (Hid & Hvalid & Hlinked).
      split; [exact Hid|]. split; [exact Hvalid|].
      intros j Hj. destruct (Hlinked j Hj) as (b' & Hb' & Hu). exists b'.
      split; [|exact Hu]. simpl. rewrite lookup_delete_ne; [exact Hb'|].
      intros <-. apply Hfree. exists k, a. auto.
    + intros k b'. simpl. intros [_ Hb']%lookup_delete_Some. auto.
  - destruct (post_applications_outcome u body s) as [Hgrow Hout]. split.
    + intros k a'.
      destruct Hout as [(_ & -> & _)|(a & _ & Hfree & -> & Hu & Hvalid & _ & Hlinked)].
      * intros Ha. destruct (Happs k a' Ha) as (? & ? & ?).
        eauto using linked_to_own_bankDetails_grow.
      * intros [[<- <-]|[_ Ha]]%lookup_insert_Some; [auto|].
        destruct (Happs k a' Ha) as (? & ? & ?).
        eauto using linked_to_own_bankDetails_grow.
    + eauto using bankDetails_grow_consistent.
  - destruct (updateApplicationSchema body) as [upd|] eqn:Hbody.
    + destruct (applications s !! i) as [a|] eqn:Hrow.
      * rewrite (patch_admin_application_found _ _ _ _ _ _ Hbody Hrow). simpl.
        split; [|exact Hbank].
        intros k a'. simpl. intros [[<- <-]|[_ Ha]]%lookup_insert_Some.
        -- destruct (Happs i a Hrow) as (Hid & Hvalid & Hlinked).
           split; [exact Hid|].
           split; [now apply valid_application_admin_updated|]. exact Hlinked.
        -- destruct (Happs k a' Ha) as (? & ? & ?). auto.
      * rewrite (patch_admin_application_missing _ _ _ _ _ Hbody Hrow). now split.
    + rewrite (patch_admin_application_invalid _ _ _ _ Hbody). now split.
Qed.

Lemma reachable_consistent s : reachable s -> consistent s.
Proof using Type.
  clear_unused. induction 1 as [|r s _ IH].
  - split; intros k x Hx; simpl in Hx; now rewrite lookup_empty in Hx.
  - now apply state_after_consistent.
Qed.

(** *** Properties of the stored rows *)


(** X2.  In every reachable state a row of bank details is stored under its
    own identifier, has a bank name of two characters at least and an
    account number of six at least, and is "verified" exactly when it has an
    account holder, "pending" otherwise; an empty sort code, routing number
    or account holder is stored as null. *)
Theorem stored_bank_details_are_valid s :
  reachable s ->
  forall k b,
    bankDetails s !! k = Some b ->
    BankDetails.id b = k
    /\ (2 <= String.length (BankDetails.bankName b))%nat
    /\ (6 <= String.length (BankDetails.accountNumber b))%nat
    /\ (BankDetails.isVerified b = "verified" <-> BankDetails.accountHolderName b <> None)
    /\ (BankDetails.isVerified b = "pending" <-> BankDetails.accountHolderName b = None)
    /\ BankDetails.sortCode b <> Some ""
    /\ BankDetails.routingNumber b <> Some ""
    /\ BankDetails.accountHolderName b <> Some "".
Proof using Type.
  clear_unused. intros Hs k b Hb.
  destruct (reachable_consistent s Hs) as [_ Hbank].
  destruct (Hbank k b Hb) as (Hid & Hname & Hnumber & Hsort & Hrouting & Hholder & Hv & _).
  split; [exact Hid|]. split; [exact Hname|]. split; [exact Hnumber|].
  rewrite Hv. destruct (BankDetails.accountHolderName b);
    repeat split; try assumption; try discriminate; try congruence.
Qed.

(** X3.  In every reachable state the bank details an application refers to
    exist and belong to the owner of the application, and the owner's
    request to delete them is refused with a 500 that changes nothing: the
    foreign key of [applications.bank_details_id] has no [onDelete]. *)
Theorem linked_bank_details_stay s :
  reachable s ->
  forall k a i,
    applications s !! k = Some a ->
    Application.bankDetailsId a = Some i ->
    exists b,
      bankDetails s !! i = Some b
      /\ BankDetails.userId b = Application.userId a
      /\ delete_bank_details (Application.userId a) i s
         = (status_message 500 "Failed to delete bank details", s).
Proof using Type.
  clear_unused. intros Hs k a i Ha Hi.
  destruct (reachable_consistent s Hs) as [Happs _].
  destruct (Happs k a Ha) as (_ & _ & Hlinked).
  destruct (Hlinked i Hi) as (b & Hb & Hu). exists b.
  split; [exact Hb|]. split; [exact Hu|].
  rewrite delete_bank_details_outcome, Hb.
  destruct (decide (BankDetails.userId b = Application.userId a)); [|contradiction].
  destruct (decide (referenced s i)) as [|Hfree]; [reflexivity|].
  destruct Hfree. exists k, a. auto.
Qed.

(** *** Properties of the requests *)

(** X4.  A request answered 400, 403 or 404 leaves the state as it was,
    counters included. *)
Theorem client_errors_change_nothing r s :
  statusCode (response_of r s) = 400
  \/ statusCode (response_of r s) = 403
  \/ statusCode (response_of r s) = 404 ->
  state_after r s = s.
Proof using Type.
  clear_unused. unfold response_of, state_after.
  destruct r as [u body|u i|u body|u i body]; simpl; intros Hcode.
  - destruct (post_bank_details_outcome u body s)
      as [_ [(_ & _ & [H500|Hsame])|(b & Hjson & _)]].
    + rewrite H500 in Hcode. destruct Hcode as [?|[?|?]]; discriminate.
    + exact Hsame.
    + rewrite Hjson in Hcode. simpl in Hcode. destruct Hcode as [?|[?|?]]; discriminate.
  - revert Hcode. rewrite delete_bank_details_outcome.
    destruct (bankDetails s !! i) as [b|]; [|reflexivity].
    destruct (decide (BankDetails.userId b = u)); [|reflexivity].
    destruct (decide (referenced s i)); [reflexivity|]. simpl.
    intros [?|[?|?]]; discriminate.
  - destruct (post_applications_outcome u body s)
      as [_ [(_ & _ & [H500|Hsame])|(a & Hjson & _)]].
    + rewrite H500 in Hcode. destruct Hcode as [?|[?|?]]; discriminate.
    + exact Hsame.
    + rewrite Hjson in Hcode. simpl in Hcode. destruct Hcode as [?|[?|?]]; discriminate.
  - revert Hcode. destruct (updateApplicationSchema body) as [upd|] eqn:Hbody.
    + destruct (applications s !! i) as [a|] eqn:Hrow.
      * rewrite (patch_admin_application_found _ _ _ _ _ _ Hbody Hrow). simpl.
        intros [?|[?|?]]; discriminate.
      * now rewrite (patch_admin_application_missing _ _ _ _ _ Hbody Hrow).
    + now rewrite (patch_admin_application_invalid _ _ _ _ Hbody).
Qed.

(** X5.  Applications are never deleted, and only a submission answered 200
    adds one: the number of applications grows by one with it and is
    unchanged by any other request. *)
Theorem applications_only_grow r s :
  (forall k, is_Some (applications s !! k) -> is_Some (applications (state_after r s) !! k))
  /\ ((exists userId body, r = PostApplications userId body)
      /\ statusCode (response_of r s) = 200 ->
      size (applications (state_after r s)) = S (size (applications s)))
  /\ (~ ((exists userId body, r = PostApplications userId body)
         /\ statusCode (response_of r s) = 200) ->
      size (applications (state_after r s)) = size (applications s)).
Proof using Type.
  clear_unused. split.
  { intros k [a Ha]. destruct (state_after_keeps_row r s k a Ha) as [a' Ha']. eauto. }
  unfold response_of, state_after.
  destruct r as [u body|u i|u body|u i body]; simpl.
  - rewrite post_bank_details_applications.
    split; [intros [(? & ? & ?) _]; discriminate | reflexivity].
  - rewrite delete_bank_details_applications.
    split; [intros [(? & ? & ?) _]; discriminate | reflexivity].
  - destruct (post_applications_outcome u body s)
      as [_ [(Hcode & -> & _)|(a & Hjson & Hfree & -> & _)]].
    + split; [intros [_ ?]; contradiction | reflexivity].
    + split; [intros _; now apply map_size_insert_None|].
      intros Hno. destruct Hno. split; [eauto|]. now rewrite Hjson.
  - split; [intros [(? & ? & ?) _]; discriminate | intros _].
    destruct (updateApplicationSchema body) as [upd|] eqn:Hbody.
    + destruct (applications s !! i) as [a|] eqn:Hrow.
      * rewrite (patch_admin_application_found _ _ _ _ _ _ Hbody Hrow). simpl.
        rewrite map_size_insert_Some; eauto.
      * now rewrite (patch_admin_application_missing _ _ _ _ _ Hbody Hrow).
    + now rewrite (patch_admin_application_invalid _ _ _ _ Hbody).
Qed.

(** X6.  A row of bank details is never modified: after any request it is
    the same row, or it is gone, and then the request was its owner's
    [DELETE], answered 200, and no application referred to it. *)
Theorem bank_details_are_immutable r s j b :
  bankDetails s !! j = Some b ->
  bankDetails (state_after r s) !! j = Some b
  \/ (bankDetails (state_after r s) !! j = None
      /\ r = DeleteBankDetails (BankDetails.userId b) j
      /\ response_of r s = json Success
      /\ ~ referenced s j).
Proof using Type.
  clear_unused. intros Hb. unfold response_of, state_after.
  destruct r as [u body|u i|u body|u i body]; simpl.
  - left. now apply post_bank_details_keeps.
  - rewrite delete_bank_details_outcome.
    destruct (bankDetails s !! i) as [b'|] eqn:Hb'; [|now left].
    destruct (decide (BankDetails.userId b' = u)) as [Hu|]; [|now left].
    destruct (decide (referenced s i)) as [|Hfree]; [now left|]. simpl.
    destruct (decide (i = j)) as [->|Hne].
    + right. rewrite lookup_delete_eq. assert (b' = b) as -> by congruence.
      rewrite <- Hu. auto.
    + left. now rewrite lookup_delete_ne.
  - left. now apply post_applications_keeps_bankDetails.
  - left. now rewrite patch_admin_application_bankDetails.
Qed.

(** X7.  In a reachable state, bank details that [POST /api/bank-details]
    has just stored can be deleted by their owner: the [DELETE] is answered
    200 and the two tables are as before the [POST]. *)
Theorem added_bank_details_can_be_removed s userId body b :
  reachable s ->
  fst (post_bank_details userId body s) = json (BankDetailsJson b) ->
  fst (delete_bank_details userId (BankDetails.id b) (snd (post_bank_details userId body s)))
  = json Success
  /\ bankDetails
       (snd (delete_bank_details userId (BankDetails.id b)
               (snd (post_bank_details userId body s))))
     = bankDetails s
  /\ applications
       (snd (delete_bank_details userId (BankDetails.id b)
               (snd (post_bank_details userId body s))))
     = applications s.
Proof using Type.
  clear_unused. intros Hs Hjson.
  destruct (post_bank_details_outcome userId body s)
    as [Happs [(Hcode & _)|(b' & Hjson' & Hfree & Hbank & Hu & _)]].
  { rewrite Hjson in Hcode. now destruct Hcode. }
  assert (b' = b) as ->.
  { rewrite Hjson in Hjson'. unfold json in Hjson'. congruence. }
  rewrite delete_bank_details_outcome, Hbank, lookup_insert_eq.
  destruct (decide (BankDetails.userId b = userId)); [|contradiction].
  destruct (decide (referenced _ _)) as [Href|_].
  - destruct Href as (k & a & Ha & Hlink). rewrite Happs in Ha.
    destruct (reachable_consistent s Hs) as [Hrows _].
    destruct (Hrows k a Ha) as (_ & _ & Hlinked).
    destruct (Hlinked _ Hlink) as (b0 & Hb0 & _). congruence.
  - cbn [fst snd bankDetails applications].
    split; [reflexivity|]. split; [|exact Happs].
    rewrite delete_insert_eq. now apply delete_id.
Qed.

(** X8.  Asking twice for [paid]: the second admin update overwrites
    [paidAt] with its own, later reading of the clock, and leaves
    [paidAmount] at the amount requested. *)
Theorem paid_again_overwrites_paidAt s id a user1 body1 upd1 user2 body2 upd2 :
  applications s !! id = Some a ->
  updateApplicationSchema body1 = Valid upd1 ->
  UpdateData.status upd1 = Some paid ->
  updateApplicationSchema body2 = Valid upd2 ->
  UpdateData.status upd2 = Some paid ->
  exists a1 a2,
    applications (snd (patch_admin_application user1 id body1 s)) !! id = Some a1
    /\ applications
         (snd (patch_admin_application user2 id body2
                 (snd (patch_admin_application user1 id body1 s)))) !! id = Some a2
    /\ Application.paidAt a1 = Some (clock (1 + tick s))
    /\ Application.paidAt a2 = Some (clock (4 + tick s))
    /\ Application.paidAmount a1 = Some (Application.amountRequested a)
    /\ Application.paidAmount a2 = Some (Application.amountRequested a)
    /\ Application.reviewedBy a2 = Some user2.
Proof using Type.
  clear_unused. intros Ha Hbody1 Hpaid1 Hbody2 Hpaid2.
  rewrite (patch_admin_application_found _ _ _ _ _ _ Hbody1 Ha).
  set (a1 := admin_updated s user1 upd1 a). simpl.
  assert (Ha1 : applications
                  (mkState (bankDetails s) (<[id := a1]> (applications s))
                     (ticks_of_update upd1 + tick s) (serial s)) !! id = Some a1)
    by apply lookup_insert_eq.
  rewrite (patch_admin_application_found _ _ _ _ _ _ Hbody2 Ha1). simpl.
  exists a1. eexists. split; [apply lookup_insert_eq|].
  split; [apply lookup_insert_eq|].
  unfold a1, admin_updated, ticks_of_update. rewrite Hpaid1, Hpaid2. simpl.
  repeat split; reflexivity.
Qed.

(** X9.  What an admin update does to the notes: a body without
    [adminNotes] keeps them, a null clears them, a string replaces
    them. *)
Theorem admin_notes_follow_the_body s adminUserId id fields upd a :
  applications s !! id = Some a ->
  updateApplicationSchema (JObject fields) = Valid upd ->
  exists a',
    applications (snd (patch_admin_application adminUserId id (JObject fields) s)) !! id
    = Some a'
    /\ (property "adminNotes" fields = None ->
        Application.adminNotes a' = Application.adminNotes a)
    /\ (property "adminNotes" fields = Some JNull -> Application.adminNotes a' = None)
    /\ (forall notes,
          property "adminNotes" fields = Some (JString notes) ->
          Application.adminNotes a' = Some notes).
Proof using Type.
  clear_unused. intros Ha Hbody.
  rewrite (patch_admin_application_found _ _ _ _ _ _ Hbody Ha). simpl.
  exists (admin_updated s adminUserId upd a). split; [apply lookup_insert_eq|].
  revert Hbody. unfold updateApplicationSchema.
  destruct (z_enum_status_optional _) as [st|]; simpl; [|discriminate].
  destruct (property "adminNotes" fields) as [[| | |n| |]|]; simpl; try discriminate;
    intros [= <-]; simpl; repeat split; try discriminate; try reflexivity.
  now intros notes [= <-].
Qed.

(** *** Properties of the routes that read *)

Lemma at_or_after_total x y : at_or_after x y \/ at_or_after y x.
Proof using Type. clear_unused. destruct x, y; simpl; auto. lia. Qed.

Lemma at_or_after_trans x y z : at_or_after x y -> at_or_after y z -> at_or_after x z.
Proof using Type. clear_unused. destruct x, y, z; simpl; auto; try tauto. lia. Qed.

Lemma newest_first_total : Total newest_first.
Proof using Type. clear_unused. intros a b. apply at_or_after_total. Qed.

Lemma newest_first_trans : Transitive newest_first.
Proof using Type. clear_unused. intros a b c. apply at_or_after_trans. Qed.

Lemma elem_of_rows {A : Type} (t : gmap string A) (x : A) :
  x ∈ rows t <-> exists k, t !! k = Some x.
Proof using Type.
  clear_unused. unfold rows. rewrite list_elem_of_fmap. split.
  - intros ([k y] & -> & Hin). exists k. now apply elem_of_map_to_list in Hin.
  - intros [k Hk]. exists (k, x). split; [reflexivity|]. now apply elem_of_map_to_list.
Qed.

Lemma length_rows {A : Type} (t : gmap string A) : length (rows t) = size t.
Proof using Type. clear_unused. unfold rows. now rewrite length_fmap, length_map_to_list. Qed.

(** Rows stored under their own identifier are pairwise distinct. *)
Lemma NoDup_rows {A : Type} (t : gmap string A) (key : A -> string) :
  (forall k x, t !! k = Some x -> key x = k) -> NoDup (rows t).
Proof using Type.
  clear_unused. intros Hkey. unfold rows.
  apply NoDup_fmap_2_strong; [|apply NoDup_map_to_list].
  intros [k1 x1] [k2 x2] H1%elem_of_map_to_list H2%elem_of_map_to_list. simpl.
  intros <-. rewrite <- (Hkey _ _ H1), <- (Hkey _ _ H2). reflexivity.
Qed.

(** X10.  [GET /api/applications] changes nothing and answers 200 with
    the applications of the caller, all of them and no other, the newest
    first (a null date of creation before any date); in a reachable state no
    application is listed twice. *)
Theorem get_applications_lists_own_newest_first userId s :
  exists found,
    get_applications userId s = (Json200 found, s)
    /\ (forall a,
          a ∈ found <->
          (exists k, applications s !! k = Some a) /\ Application.userId a = userId)
    /\ StronglySorted newest_first found
    /\ (reachable s -> NoDup found).
Proof using Type.
  clear_unused. eexists. split; [reflexivity|]. split; [|split].
  - intros a. rewrite merge_sort_Permutation, list_elem_of_filter, elem_of_rows. tauto.
  - apply StronglySorted_merge_sort;
      [exact newest_first_trans | exact newest_first_total].
  - intros Hs. rewrite merge_sort_Permutation. apply NoDup_filter.
    apply (NoDup_rows _ Application.id). intros k a Ha.
    destruct (reachable_consistent s Hs) as [Happs _].
    now destruct (Happs k a Ha).
Qed.

Lemma get_application_run userId id s :
  get_application userId id s
  = (match applications s !! id with
     | None => Failure 404 "Application not found"
     | Some a =>
         if decide (Application.userId a = userId) then Json200 a
         else Failure 403 "Access denied"
     end, s).
Proof using Type.
  clear_unused. unfold get_application, try_read. run_route.
  destruct (applications s !! id) as [a|]; simpl; [|reflexivity].
  now destruct (decide (Application.userId a = userId)).
Qed.

(** X11.  The routes that read one application or the bank details change
    nothing and disclose the rows of the caller only:
    [GET /api/applications/:id] answers 404 when no row has the
    identifier, 403 when the row belongs to somebody else and 200 with the
    row otherwise; [GET /api/bank-details] answers 200 with the bank details
    of the caller, all of them and no other. *)
Theorem reads_disclose_own_rows userId id s :
  (get_application userId id s
   = (match applications s !! id with
      | None => Failure 404 "Application not found"
      | Some a =>
          if decide (Application.userId a = userId) then Json200 a
          else Failure 403 "Access denied"
      end, s))
  /\ (forall a,
        fst (get_application userId id s) = Json200 a ->
        applications s !! id = Some a /\ Application.userId a = userId)
  /\ exists found,
       get_bank_details userId s = (Json200 found, s)
       /\ forall b,
            b ∈ found <->
            (exists k, bankDetails s !! k = Some b) /\ BankDetails.userId b = userId.
Proof using Type.
  clear_unused.
  split; [apply get_application_run|]. split.
  - intros a. rewrite get_application_run. simpl.
    destruct (applications s !! id) as [a0|]; [|discriminate].
    destruct (decide (Application.userId a0 = userId)); [|discriminate].
    intros [= <-]. auto.
  - eexists. split; [reflexivity|].
    intros b. rewrite list_elem_of_filter, elem_of_rows. tauto.
Qed.

(** X12.  In a reachable state [GET /api/admin/applications] changes nothing
    and answers 200 with one row for each application, the newest first;
    each row carries the user of the application as the table of users has
    it and, when the application refers to bank details, those bank details,
    which belong to the applicant. *)
Theorem admin_listing_joins_own_bank_details users s :
  reachable s ->
  exists found,
    get_admin_applications users s = (Json200 found, s)
    /\ Admin.application <$> found ≡ₚ rows (applications s)
    /\ length found = size (applications s)
    /\ StronglySorted newest_first (Admin.application <$> found)
    /\ forall row,
         row ∈ found ->
         Admin.user row = users !! Application.userId (Admin.application row)
         /\ (Application.bankDetailsId (Admin.application row) = None ->
             Admin.bankDetails row = None)
         /\ forall i,
              Application.bankDetailsId (Admin.application row) = Some i ->
              exists b,
                Admin.bankDetails row = Some b
                /\ bankDetails s !! i = Some b
                /\ BankDetails.userId b = Application.userId (Admin.application row).
Proof using Type.
  clear_unused. intros Hs. eexists. split; [reflexivity|].
  assert (Happ : forall l : list Application.t,
             Admin.application
               <$> ((fun app =>
                       Admin.mkApplicationWithUser app (users !! Application.userId app)
                         (joined_bankDetails s app)) <$> l) = l).
  { intros l. rewrite <- list_fmap_compose. apply list_fmap_id. }
  split; [|split; [|split]].
  - rewrite Happ. apply merge_sort_Permutation.
  - rewrite length_fmap, merge_sort_Permutation. apply length_rows.
  - rewrite Happ. apply StronglySorted_merge_sort;
      [exact newest_first_trans | exact newest_first_total].
  - intros row (a & -> & Ha)%list_elem_of_fmap. simpl.
    rewrite merge_sort_Permutation in Ha. apply elem_of_rows in Ha as [k Ha].
    destruct (reachable_consistent s Hs) as [Happs _].
    destruct (Happs k a Ha) as (_ & (_ & _ & _ & Hne & _) & Hlinked).
    split; [reflexivity|]. unfold joined_bankDetails. split.
    + now intros ->.
    + intros i Hi. rewrite Hi. destruct (Hlinked i Hi) as (b & Hb & Hu).
      destruct (String.eqb i "") eqn:Hempty.
      * apply String.eqb_eq in Hempty. subst i. congruence.
      * eauto.
Qed.

(** *** Properties of the profiles *)

Lemma z_enum_country_name c : z_enum_country (Some (JString (countryName c))) = Valid c.
Proof using Type. clear_unused. now destruct c. Qed.

Lemma profileSchema_valid body data :
  profileSchema body = Valid data ->
  (2 <= String.length (ProfileData.fullName data))%nat.
Proof using Type.
  clear_unused. unfold profileSchema. destruct body as [| | | | |o]; try discriminate.
  destruct (z_string_min 2 _) as [n|] eqn:Hn; simpl; [|discriminate].
  destruct (z_string_optional_nullable (property "phone" o)); simpl; [|discriminate].
  destruct (z_enum_country _); simpl; [|discriminate].
  destruct (z_string_optional_nullable (property "address" o)); simpl; [|discriminate].
  intros [= <-]. simpl. eauto using z_string_min_valid.
Qed.

(** [PUT /api/profile] in closed form. *)
Lemma put_profile_run userId body w :
  put_profile userId body w
  = match profileSchema body with
    | Invalid => (Failure 400 "Invalid data", w)
    | Valid data =>
        match first_profile userId (userProfiles w) with
        | Some _ =>
            let updated :=
              (fun p =>
                 if decide (UserProfile.userId p = userId)
                 then set_profile (clock (tick (core w))) (profile_of_data None data) p
                 else p) <$> userProfiles w in
            (Json200 (first_profile userId updated),
             mkSite (snd (now (core w))) updated)
        | None =>
            let created :=
              UserProfile.mk (gen_random_uuid (serial (core w))) userId
                (ProfileData.fullName data)
                (column_value (ProfileData.phone data))
                (ProfileData.country data)
                (column_value (ProfileData.address data))
                UserProfile.beneficiary
                (Some (clock (tick (core w)))) (Some (clock (tick (core w)))) in
            if decide (Exists (fun p => UserProfile.id p = gen_random_uuid (serial (core w)))
                         (userProfiles w))
            then (Failure 500 "Failed to update profile",
                  mkSite (snd (now (snd (new_uuid (core w))))) (userProfiles w))
            else (Json200 (Some created),
                  mkSite (snd (now (snd (new_uuid (core w))))) (userProfiles w ++ [created]))
        end
    end.
Proof using Type.
  clear_unused. destruct w as [s profiles].
  unfold put_profile, updateProfile, createProfile, getProfile, run_site, bind_site, lift,
    ret_site, parse.
  destruct (profileSchema body) as [data|]; simpl; [|reflexivity].
  destruct (first_profile userId profiles); simpl; [reflexivity|].
  now destruct (decide (Exists _ _)).
Qed.

Lemma first_profile_None userId profiles :
  first_profile userId profiles = None <-> userId ∉ UserProfile.userId <$> profiles.
Proof using Type.
  clear_unused. unfold first_profile. rewrite head_None. split.
  - intros Hnil (p & -> & Hp)%list_elem_of_fmap.
    assert (p ∈ filter (fun q => UserProfile.userId q = UserProfile.userId p) profiles)
      as Hin by (apply list_elem_of_filter; auto).
    rewrite Hnil in Hin. now apply elem_of_nil in Hin.
  - intros Hnot. destruct (filter _ profiles) as [|p l] eqn:Hf; [reflexivity|].
    assert (p ∈ filter (fun q => UserProfile.userId q = userId) profiles) as Hin
      by (rewrite Hf; left).
    apply list_elem_of_filter in Hin as [<- Hin]. destruct Hnot.
    apply list_elem_of_fmap. eauto.
Qed.

(** What the update of the rows of a user does to the first row of any
    user. *)
Lemma first_profile_update userId v (f : UserProfile.t -> UserProfile.t) profiles :
  (forall p, UserProfile.userId (f p) = UserProfile.userId p) ->
  first_profile v
    ((fun p => if decide (UserProfile.userId p = userId) then f p else p) <$> profiles)
  = (if decide (v = userId) then f else fun p => p) <$> first_profile v profiles.
Proof using Type.
  clear_unused. intros Hf. unfold first_profile.
  induction profiles as [|p l IH]; [reflexivity|]. simpl.
  rewrite !filter_cons.
  destruct (decide (UserProfile.userId p = userId)) as [Hp|Hp].
  - rewrite Hf. destruct (decide (UserProfile.userId p = v)) as [Hv|Hv]; [|exact IH].
    simpl. destruct (decide (v = userId)); [reflexivity | congruence].
  - destruct (decide (UserProfile.userId p = v)) as [Hv|Hv]; [|exact IH].
    simpl. destruct (decide (v = userId)); [congruence | reflexivity].
Qed.

Lemma first_profile_app_new userId v profiles created :
  first_profile userId profiles = None ->
  UserProfile.userId created = userId ->
  first_profile v (profiles ++ [created])
  = if decide (v = userId) then Some created else first_profile v profiles.
Proof using Type.
  clear_unused. intros Hnone Hu. unfold first_profile in *.
  rewrite filter_app, filter_cons, filter_nil.
  apply head_None in Hnone.
  destruct (decide (v = userId)) as [->|Hv].
  - rewrite Hnone. simpl. now destruct (decide (UserProfile.userId created = userId)).
  - destruct (decide (UserProfile.userId created = v)); [congruence|].
    now rewrite app_nil_r.
Qed.

(** X13.  In every state of the site that the requests reach, a user has at
    most one profile, no two profiles share an identifier, every profile
    has the role [beneficiary], whatever the bodies held, and a full name
    of two characters at least. *)
Theorem profiles_are_unique_beneficiaries w :
  reachable_site w ->
  NoDup (UserProfile.userId <$> userProfiles w)
  /\ NoDup (UserProfile.id <$> userProfiles w)
  /\ forall p,
       p ∈ userProfiles w ->
       UserProfile.role p = UserProfile.beneficiary
       /\ (2 <= String.length (UserProfile.fullName p))%nat.
Proof using Type.
  clear_unused. induction 1 as [|r w _ (Husers & Hids & Hrows)].
  - simpl. split; [constructor|]. split; [constructor|].
    intros p Hp. now apply elem_of_nil in Hp.
  - destruct r as [u body|r]; simpl; [|auto].
    rewrite put_profile_run.
    destruct (profileSchema body) as [data|] eqn:Hbody; [|auto].
    apply profileSchema_valid in Hbody.
    destruct (first_profile u (userProfiles w)) as [p0|] eqn:Hfirst; simpl.
    + rewrite <- !list_fmap_compose.
      assert (Hsame : forall (A : Type) (g : UserProfile.t -> A),
                 (forall t d p, g (set_profile t d p) = g p) ->
                 (g ∘ (fun p => if decide (UserProfile.userId p = u)
                               then set_profile (clock (tick (core w)))
                                      (profile_of_data None data) p
                               else p)) <$> userProfiles w
                 = g <$> userProfiles w).
      { intros A g Hg. apply list_fmap_ext. intros _ p _. simpl.
        now destruct (decide (UserProfile.userId p = u)). }
      rewrite !Hsame by reflexivity.
      split; [exact Husers|]. split; [exact Hids|].
      intros p (q & -> & Hq)%list_elem_of_fmap. destruct (Hrows q Hq) as [Hrole Hname].
      destruct (decide (UserProfile.userId q = u)); simpl; auto.
    + destruct (decide (Exists _ _)) as [|Hfresh]; simpl; [auto|].
      rewrite !fmap_app. simpl. split; [|split].
      * apply NoDup_app. split; [exact Husers|]. split; [|apply NoDup_singleton].
        intros v Hv Hu%list_elem_of_singleton. subst v.
        now apply first_profile_None in Hfirst.
      * apply NoDup_app. split; [exact Hids|]. split; [|apply NoDup_singleton].
        intros v (p & -> & Hp)%list_elem_of_fmap Hv%list_elem_of_singleton.
        apply Hfresh, Exists_exists. eauto.
      * intros p [Hp|Hp%list_elem_of_singleton]%elem_of_app; [auto|].
        subst p. simpl. auto.
Qed.

(** X14.  [PUT /api/profile] with a valid body (and, when the caller has
    no profile yet, a fresh identifier drawn) answers 200 with the profile
    of the caller, which [GET /api/profile] then returns: it has the full
    name and the country of the body; for the phone and the address a
    string or a null of the body is stored and a property left out keeps
    the previous value, null for a new profile; the identifier, the role
    and the date of creation of an existing profile stay.  The first
    profile of every other user is as it was. *)
Theorem put_profile_upserts userId body data w :
  profileSchema body = Valid data ->
  (first_profile userId (userProfiles w) = None ->
   forall p, p ∈ userProfiles w -> UserProfile.id p <> gen_random_uuid (serial (core w))) ->
  exists p,
    fst (put_profile userId body w) = Json200 (Some p)
    /\ get_profile userId (snd (put_profile userId body w))
       = (Json200 p, snd (put_profile userId body w))
    /\ UserProfile.userId p = userId
    /\ UserProfile.fullName p = ProfileData.fullName data
    /\ UserProfile.country p = ProfileData.country data
    /\ UserProfile.phone p
       = default (first_profile userId (userProfiles w) ≫= UserProfile.phone)
           (ProfileData.phone data)
    /\ UserProfile.address p
       = default (first_profile userId (userProfiles w) ≫= UserProfile.address)
           (ProfileData.address data)
    /\ (forall old,
          first_profile userId (userProfiles w) = Some old ->
          UserProfile.id p = UserProfile.id old
          /\ UserProfile.role p = UserProfile.role old
          /\ UserProfile.createdAt p = UserProfile.createdAt old)
    /\ (first_profile userId (userProfiles w) = None ->
        UserProfile.role p = UserProfile.beneficiary)
    /\ forall v,
         v <> userId ->
         first_profile v (userProfiles (snd (put_profile userId body w)))
         = first_profile v (userProfiles w).
Proof using Type.
  clear_unused. intros Hbody Hfresh.
  assert (Hget : forall w' p,
             first_profile userId (userProfiles w') = Some p ->
             get_profile userId w' = (Json200 p, w')).
  { intros w' p Hp. unfold get_profile, run_site, bind_site, getProfile, ret_site.
    now rewrite Hp. }
  rewrite put_profile_run, Hbody.
  destruct (first_profile userId (userProfiles w)) as [old|] eqn:Hold; simpl.
  - assert (Hfirst : forall v,
               first_profile v
                 ((fun p => if decide (UserProfile.userId p = userId)
                            then set_profile (clock (tick (core w)))
                                   (profile_of_data None data) p
                            else p) <$> userProfiles w)
               = (if decide (v = userId)
                  then set_profile (clock (tick (core w))) (profile_of_data None data)
                  else fun p => p) <$> first_profile v (userProfiles w))
      by (intros v; now apply first_profile_update).
    exists (set_profile (clock (tick (core w))) (profile_of_data None data) old).
    assert (Hnew : first_profile userId
                     ((fun p => if decide (UserProfile.userId p = userId)
                                then set_profile (clock (tick (core w)))
                                       (profile_of_data None data) p
                                else p) <$> userProfiles w)
                   = Some (set_profile (clock (tick (core w)))
                             (profile_of_data None data) old)).
    { rewrite Hfirst, Hold. simpl. now destruct (decide (userId = userId)). }
    split; [now rewrite Hnew|]. split; [now apply Hget|].
    assert (UserProfile.userId old = userId) as Hu.
    { unfold first_profile in Hold. apply head_Some_elem_of in Hold.
      now apply list_elem_of_filter in Hold as [? _]. }
    simpl. split_and!; try reflexivity.
    + exact Hu.
    + now intros old' [= <-].
    + discriminate.
    + intros v Hv. rewrite Hfirst. destruct (decide (v = userId)); [contradiction|].
      now destruct (first_profile v (userProfiles w)).
  - destruct (decide (Exists _ _)) as [Hexists|_].
    { apply Exists_exists in Hexists as (p & Hp & Hid). now destruct (Hfresh eq_refl p Hp). }
    eexists. split; [reflexivity|]. simpl.
    split.
    { apply Hget. simpl. rewrite (first_profile_app_new userId) by (auto; reflexivity).
      now destruct (decide (userId = userId)). }
    split_and!; try reflexivity; try discriminate.
    + now destruct (ProfileData.phone data) as [[?|]|].
    + now destruct (ProfileData.address data) as [[?|]|].
    + intros v Hv. rewrite (first_profile_app_new userId) by (auto; reflexivity).
      now destruct (decide (v = userId)).
Qed.

(** *** What the pages show of an account number *)

Lemma substring_all n s :
  (String.length s <= n)%nat -> String.substring 0 n s = s.
Proof using Type.
  clear_unused. revert n. induction s as [|c s IH]; intros n Hn.
  - now destruct n.
  - destruct n as [|n]; simpl in *; [lia|]. f_equal. apply IH. lia.
Qed.

Lemma substring_whole_tail k n s :
  (k <= String.length s)%nat ->
  (String.length s - k <= n)%nat ->
  String.append (String.substring 0 k s) (String.substring k n s) = s.
Proof using Type.
  clear_unused. revert k n. induction s as [|c s IH]; intros k n Hk Hn.
  - simpl in Hk. assert (k = 0)%nat as -> by lia. now destruct n.
  - destruct k as [|k].
    + change (String.substring 0 0 (String c s)) with EmptyString.
      change (String.append EmptyString ?x) with x.
      apply substring_all. lia.
    + change (String.substring 0 (S k) (String c s))
        with (String c (String.substring 0 k s)).
      change (String.substring (S k) n (String c s)) with (String.substring k n s).
      change (String.append (String c ?x) ?y) with (String c (String.append x y)).
      f_equal. apply IH; simpl in *; lia.
Qed.

Lemma length_substring k n s :
  String.length (String.substring k n s) = Nat.min n (String.length s - k).
Proof using Type.
  clear_unused. revert k n. induction s as [|c s IH]; intros k n.
  - destruct k, n; reflexivity.
  - destruct k as [|k]; simpl.
    + destruct n as [|n]; simpl; [reflexivity|]. rewrite IH. f_equal. f_equal. lia.
    + apply IH.
Qed.

Lemma length_append s1 s2 :
  String.length (s1 ++ s2) = (String.length s1 + String.length s2)%nat.
Proof using Type.
  clear_unused. induction s1 as [|c s1 IH]; [reflexivity|].
  change (String.length (String c (String.append s1 s2))
          = S (String.length s1 + String.length s2)).
  simpl. f_equal. exact IH.
Qed.

(** X15.  The pages show of an account number four stars and its last four
    characters (the whole of a shorter one).  For the bank details of a
    reachable state that is eight characters, of which the last four are
    the end of the account number, and two characters at least stay
    hidden. *)
Theorem masked_account_hides_the_start s k b :
  reachable s ->
  bankDetails s !! k = Some b ->
  exists hidden shown,
    BankDetails.accountNumber b = hidden ++ shown
    /\ masked_account (BankDetails.accountNumber b) = "****" ++ shown
    /\ String.length shown = 4%nat
    /\ (2 <= String.length hidden)%nat
    /\ String.length (masked_account (BankDetails.accountNumber b)) = 8%nat.
Proof using Type.
  clear_unused. intros Hs Hb.
  destruct (reachable_consistent s Hs) as [_ Hbank].
  destruct (Hbank k b Hb) as (_ & _ & Hnumber & _).
  set (number := BankDetails.accountNumber b) in *.
  exists (String.substring 0 (String.length number - 4) number), (slice_last 4 number).
  assert (Hshown : String.length (slice_last 4 number) = 4%nat).
  { unfold slice_last. rewrite length_substring. lia. }
  split; [|split; [reflexivity|split; [exact Hshown|split]]].
  - symmetry. apply substring_whole_tail; lia.
  - rewrite length_substring. lia.
  - unfold masked_account. rewrite length_append, Hshown. reflexivity.
Qed.

(** *** Submissions *)


(** X23.  An application that [POST /api/applications] has answered can be
    read back: its owner gets it from [GET /api/applications/:id] and finds
    it in the list of [GET /api/applications]; anybody else is answered
    403. *)
Theorem submitted_application_can_be_read userId body a s :
  fst (post_applications userId body s) = json (ApplicationJson (Some a)) ->
  get_application userId (Application.id a) (snd (post_applications userId body s))
  = (Json200 a, snd (post_applications userId body s))
  /\ (forall other,
        other <> userId ->
        get_application other (Application.id a) (snd (post_applications userId body s))
        = (Failure 403 "Access denied", snd (post_applications userId body s)))
  /\ exists found,
       get_applications userId (snd (post_applications userId body s))
       = (Json200 found, snd (post_applications userId body s))
       /\ a ∈ found.
Proof using Type.
  clear_unused. intros Hanswer.
  destruct (post_applications_outcome userId body s) as [_ [(Hcode & _)|Hstored]].
  { rewrite Hanswer in Hcode. now destruct Hcode. }
  destruct Hstored as (a0 & Ha0 & _ & Happs & Howner & _).
  rewrite Hanswer in Ha0. unfold json in Ha0. injection Ha0 as <-.
  assert (Hrow : applications (snd (post_applications userId body s)) !! Application.id a
                 = Some a) by (rewrite Happs; apply lookup_insert_eq).
  split; [|split].
  - rewrite get_application_run, Hrow. now rewrite decide_True.
  - intros other Hother. rewrite get_application_run, Hrow.
    rewrite decide_False; [reflexivity | congruence].
  - eexists. split; [reflexivity|].
    rewrite merge_sort_Permutation, list_elem_of_filter, elem_of_rows. eauto.
Qed.
End Server.

(** ** The dashboard *)

Lemma includes_empty s : includes s "" = true.
Proof. destruct s; reflexivity. Qed.

Lemma matchesStatus_approved app :
  Admin.matchesStatus "approved" app = Admin.has_status approved app.
Proof.
  unfold Admin.matchesStatus, Admin.has_status.
  destruct (Application.status (Admin.application app)); reflexivity.
Qed.

Lemma approved_or_paid_count apps :
  List.length
    (List.filter (fun a => Admin.has_status approved a || Admin.has_status paid a) apps)
  = (List.length (List.filter (Admin.has_status approved) apps)
     + List.length (List.filter (Admin.has_status paid) apps))%nat.
Proof.
  unfold Admin.has_status.
  induction apps as [|app apps IH]; [reflexivity|]. simpl.
  destruct (Application.status (Admin.application app)); simpl; rewrite IH; lia.
Qed.

(** C8.  With an empty search text and the status filter ["approved"], the
    dashboard lists the rows whose status is [approved], in their order, and
    so no row whose status is [paid]; the "Approved / Paid" counter is the
    number of rows whose status is [approved] or [paid], that is the number
    of rows listed plus the number of rows whose status is [paid]. *)
Theorem approved_filter_excludes_paid (toLowerCase : string -> string)
    (apps : list Admin.ApplicationWithUser) :
  toLowerCase "" = "" ->
  Admin.filteredApplications toLowerCase (Some apps) "" "approved"
  = Some (List.filter (Admin.has_status approved) apps)
  /\ (forall listed,
        Admin.filteredApplications toLowerCase (Some apps) "" "approved" = Some listed ->
        forall app, app ∈ listed <->
          app ∈ apps /\ Application.status (Admin.application app) = approved)
  /\ Admin.approved_count (Admin.stats (Some apps))
     = List.length
         (List.filter
            (fun app =>
               bool_decide (Application.status (Admin.application app) = approved
                            \/ Application.status (Admin.application app) = paid))
            apps)
  /\ Admin.approved_count (Admin.stats (Some apps))
     = (List.length (List.filter (Admin.has_status approved) apps)
        + List.length (List.filter (Admin.has_status paid) apps))%nat.
Proof.
  intros Hlower.
  assert (Hfilter : Admin.filteredApplications toLowerCase (Some apps) "" "approved"
                    = Some (List.filter (Admin.has_status approved) apps)).
  { unfold Admin.filteredApplications. f_equal. apply List.filter_ext. intros app.
    unfold Admin.matchesSearch. rewrite Hlower, includes_empty. simpl.
    apply matchesStatus_approved. }
  split; [exact Hfilter|]. split; [|split].
  - intros listed. rewrite Hfilter. intros [= <-] app.
    rewrite !list_elem_of_In, List.filter_In. unfold Admin.has_status.
    now rewrite bool_decide_eq_true.
  - simpl. f_equal. apply List.filter_ext. intros app. unfold Admin.has_status.
    destruct (Application.status (Admin.application app)); reflexivity.
  - simpl. apply approved_or_paid_count.
Qed.

(** ** The properties on sample runs *)

Abbreviation demo_run := (run Demo.clock Demo.gen_random_uuid Demo.positiveAmount).
Abbreviation demo_reachable :=
  (reachable Demo.clock Demo.gen_random_uuid Demo.positiveAmount).
Abbreviation demo_after :=
  (state_after Demo.clock Demo.gen_random_uuid Demo.positiveAmount).
Abbreviation demo_response :=
  (response_of Demo.clock Demo.gen_random_uuid Demo.positiveAmount).

Lemma demo_run_reachable rs : demo_reachable (demo_run rs initial).
Proof. apply reachable_run. constructor. Qed.





(** From [pending], the update to [paid] is accepted. *)
Lemma admin_update_writes_any_status_witness :
  exists a,
    applications (demo_run [Demo.submit] initial) !! "id-0" = Some a
    /\ updateApplicationSchema (Demo.set_status paid) = Valid (UpdateData.mk (Some paid) None)
    /\ statusCode
         (fst (patch_admin_application Demo.clock "bob" "id-0" (Demo.set_status paid)
                 (demo_run [Demo.submit] initial))) = 200
    /\ Application.status
         <$> applications
               (snd (patch_admin_application Demo.clock "bob" "id-0" (Demo.set_status paid)
                       (demo_run [Demo.submit] initial))) !! "id-0"
       = Some paid.
Proof.
  eexists. split; [reflexivity|]. split; [reflexivity|].
  destruct (admin_update_writes_any_status Demo.clock (demo_run [Demo.submit] initial)
              "bob" "id-0" (Demo.set_status paid) (UpdateData.mk (Some paid) None) _ paid
              eq_refl eq_refl eq_refl) as (Hcode & Hstatus & _).
  split; [exact Hcode | exact Hstatus].
Defined.

(** C3 as stated fails.  The pair [pending], [paid] is no row of the
    table; on a [pending] application the admin update to [paid] is
    answered 200 and the status stored is [paid]. *)
Lemma invalid_transition_counterexample :
  in_spec_transition_table pending paid = false
  /\ Application.status <$> applications (demo_run [Demo.submit] initial) !! "id-0"
     = Some pending
  /\ statusCode (demo_response (Demo.mark paid) (demo_run [Demo.submit] initial)) = 200
  /\ Application.status
       <$> applications (demo_after (Demo.mark paid) (demo_run [Demo.submit] initial))
             !! "id-0"
     = Some paid.
Proof. repeat split; reflexivity. Defined.

(** "Mark as Paid" on the sample application. *)
Lemma mark_paid_records_requested_amount_witness :
  exists a a',
    applications (demo_run [Demo.submit; Demo.mark approved] initial) !! "id-0" = Some a
    /\ updateApplicationSchema (Demo.set_status paid) = Valid (UpdateData.mk (Some paid) None)
    /\ applications
         (snd (patch_admin_application Demo.clock "bob" "id-0" (Demo.set_status paid)
                 (demo_run [Demo.submit; Demo.mark approved] initial))) !! "id-0"
       = Some a'
    /\ Application.paidAt a' = Some (Demo.clock 4)
    /\ Application.paidAmount a' = Some "250.00".
Proof.
  destruct (mark_paid_records_requested_amount Demo.clock
              (demo_run [Demo.submit; Demo.mark approved] initial)
              "bob" "id-0" (Demo.set_status paid) (UpdateData.mk (Some paid) None) _
              eq_refl eq_refl eq_refl)
    as [(a' & _ & Hrow & _ & _ & Hat & _ & Hamount & _) _].
  eexists. exists a'. split; [reflexivity|]. split; [reflexivity|].
  split; [exact Hrow|]. split; [exact Hat | exact Hamount].
Defined.

(** The sample account is stored although it has no sort code. *)
Lemma uk_account_without_sort_code_is_stored_witness :
  bankDetailsSchema (Some Demo.uk_account_without_sort_code)
  = Valid (BankDetailsData.mk UK "Barclays" "12345678" None None None)
  /\ bankDetails initial !! Demo.gen_random_uuid 0 = None
  /\ Apply.bankDetailsSchema Demo.uk_account_without_sort_code = Invalid
  /\ exists b,
       demo_response Demo.add_account initial = json (BankDetailsJson b)
       /\ bankDetails (demo_after Demo.add_account initial) !! "id-0" = Some b
       /\ BankDetails.country b = UK
       /\ BankDetails.sortCode b = None.
Proof.
  split; [reflexivity|]. split; [reflexivity|].
  destruct (uk_account_without_sort_code_is_stored Demo.clock Demo.gen_random_uuid "alice"
              Demo.uk_account_without_sort_code
              (BankDetailsData.mk UK "Barclays" "12345678" None None None) initial
              eq_refl eq_refl I eq_refl)
    as (Hform & b & Hresponse & Hrow & _ & Hcountry & Hsort).
  split; [exact Hform|]. exists b.
  split; [exact Hresponse|]. split; [|split; [exact Hcountry | exact Hsort]].
  assert (BankDetails.id b = "id-0") as Hid.
  { revert Hresponse. vm_compute. now intros [= <-]. }
  rewrite <- Hid. exact Hrow.
Defined.

(** The approved filter and the counter on two rows, one [approved] and one
    [paid]. *)
Lemma approved_filter_excludes_paid_witness :
  Demo.toLowerCase "" = ""
  /\ Admin.filteredApplications Demo.toLowerCase
       (Some [Demo.row "id-0" approved; Demo.row "id-1" paid]) "" "approved"
     = Some [Demo.row "id-0" approved]
  /\ Admin.approved_count (Admin.stats (Some [Demo.row "id-0" approved; Demo.row "id-1" paid]))
     = 2.
Proof.
  split; [reflexivity|].
  destruct (approved_filter_excludes_paid Demo.toLowerCase
              [Demo.row "id-0" approved; Demo.row "id-1" paid] eq_refl)
    as (Hfilter & _ & _ & Hcount).
  split; [exact Hfilter | exact Hcount].
Defined.

(** A caller who names the bank details of somebody else. *)
Lemma foreign_bank_details_refused_witness :
  applicationSubmitSchema Demo.positiveAmount Demo.submission_foreign_link
  = Valid (ApplicationData.mk "Rent arrears after losing my job" "250.00" "GBP"
             (Some (Some "id-0")), None)
  /\ BankDetails.userId <$> bankDetails (demo_run [Demo.add_account] initial) !! "id-0"
     = Some "alice"
  /\ post_applications Demo.clock Demo.gen_random_uuid Demo.positiveAmount "mallory"
       Demo.submission_foreign_link (demo_run [Demo.add_account] initial)
     = (status_message 403 "Invalid bank details", demo_run [Demo.add_account] initial).
Proof.
  split; [reflexivity|]. split; [reflexivity|].
  apply (foreign_bank_details_refused Demo.clock Demo.gen_random_uuid Demo.positiveAmount
           "mallory" Demo.submission_foreign_link
           (ApplicationData.mk "Rent arrears after losing my job" "250.00" "GBP"
              (Some (Some "id-0")))
           "id-0").
  - reflexivity.
  - reflexivity.
  - discriminate.
  - intros b Hb. vm_compute in Hb. injection Hb as <-. discriminate.
Defined.

(** C10 as stated fails.  The body holds no [bankDetails] and its
    [bankDetailsId] is the empty string, which names no row; the answer is
    200 and an application is stored, linked to no bank details. *)
Lemma empty_bank_details_id_counterexample :
  applicationSubmitSchema Demo.positiveAmount Demo.submission_empty_link
  = Valid (ApplicationData.mk "Rent arrears after losing my job" "250.00" "GBP"
             (Some (Some "")), None)
  /\ bankDetails initial !! "" = None
  /\ statusCode (demo_response (PostApplications "alice" Demo.submission_empty_link) initial)
     = 200
  /\ Application.bankDetailsId
       <$> applications (demo_after (PostApplications "alice" Demo.submission_empty_link)
                           initial) !! "id-0"
     = Some None.
Proof. repeat split; reflexivity. Defined.

(** The sample submission asks for the status [paid] and is stored as
    [pending]. *)
Lemma created_application_is_pending_witness :
  statusCode
    (fst (post_applications Demo.clock Demo.gen_random_uuid Demo.positiveAmount "alice"
            Demo.submission initial)) = 200
  /\ exists a,
       payload
         (fst (post_applications Demo.clock Demo.gen_random_uuid Demo.positiveAmount "alice"
                 Demo.submission initial)) = ApplicationJson (Some a)
       /\ Application.status a = pending.
Proof.
  split; [reflexivity|].
  destruct (proj1 (created_application_is_pending Demo.clock Demo.gen_random_uuid
                     Demo.positiveAmount "alice" Demo.submission initial) eq_refl)
    as (a & Hpayload & Hstatus & _).
  exists a. split; [exact Hpayload | exact Hstatus].
Defined.

(** Somebody else asks to delete the account of alice, then an account that
    does not exist. *)
Lemma only_the_owner_deletes_bank_details_witness :
  BankDetails.userId <$> bankDetails (demo_run [Demo.add_account] initial) !! "id-0"
  = Some "alice"
  /\ delete_bank_details "mallory" "id-0" (demo_run [Demo.add_account] initial)
     = (status_message 403 "Access denied", demo_run [Demo.add_account] initial)
  /\ delete_bank_details "mallory" "id-9" (demo_run [Demo.add_account] initial)
     = (status_message 404 "Bank details not found", demo_run [Demo.add_account] initial).
Proof.
  split; [reflexivity|].
  destruct (only_the_owner_deletes_bank_details Demo.clock Demo.gen_random_uuid
              Demo.positiveAmount "mallory" "id-0" (demo_run [Demo.add_account] initial))
    as (_ & Hforeign & _).
  destruct (only_the_owner_deletes_bank_details Demo.clock Demo.gen_random_uuid
              Demo.positiveAmount "mallory" "id-9" (demo_run [Demo.add_account] initial))
    as (Hmissing & _).
  split.
  - eapply Hforeign; [reflexivity | discriminate].
  - apply Hmissing. reflexivity.
Defined.

(** An update that names every property leaves the submission of the sample
    application as it was. *)
Lemma update_keeps_the_submission_witness :
  exists a',
    applications
      (snd (updateApplication Demo.clock "id-0" Demo.sweeping_update
              (demo_run [Demo.submit] initial))) !! "id-0" = Some a'
    /\ Application.userId a' = "alice"
    /\ Application.amountRequested a' = "250.00"
    /\ Application.currency a' = "GBP".
Proof.
  destruct (proj1 (update_keeps_the_submission Demo.clock "id-0" Demo.sweeping_update
                     (demo_run [Demo.submit] initial)) "id-0" _ eq_refl)
    as (a' & Hrow & (_ & Huser & _ & Hamount & Hcurrency & _) & _).
  exists a'. split; [exact Hrow|].
  rewrite Huser, Hamount, Hcurrency. repeat split; reflexivity.
Defined.

(** ** The names of the enumerations *)

(** X16.  The schemas accept as a status exactly the five names, each read
    as the status it names, and as a country exactly "UK" and "USA": reading
    inverts writing. *)
Theorem enum_names_round_trip :
  (forall (name : string) (st : Status),
     z_enum_status name = Valid st <-> name = statusName st)
  /\ (forall name, z_enum_status name = Invalid <-> forall st, name <> statusName st)
  /\ (forall (name : string) (c : Country),
        z_enum_country (Some (JString name)) = Valid c <-> name = countryName c).
Proof.
  assert (Hstatus : forall name st, z_enum_status name = Valid st <-> name = statusName st).
  { intros name st. split.
    - unfold z_enum_status.
      repeat (match goal with
              | |- context [String.eqb name ?x] =>
                  destruct (String.eqb name x) eqn:?
              end);
        try discriminate; intros [= <-];
        match goal with H : String.eqb _ _ = true |- _ => now apply String.eqb_eq in H end.
    - intros ->. now destruct st. }
  split; [exact Hstatus|]. split.
  - intros name. split.
    + intros Hinvalid st Hname. apply Hstatus in Hname. congruence.
    + intros Hnone. destruct (z_enum_status name) as [st|] eqn:Hst; [|reflexivity].
      apply Hstatus in Hst. now destruct (Hnone st).
  - intros name c. split.
    + simpl. destruct (String.eqb name "UK") eqn:Huk.
      * intros [= <-]. now apply String.eqb_eq in Huk.
      * destruct (String.eqb name "USA") eqn:Husa; [|discriminate].
        intros [= <-]. now apply String.eqb_eq in Husa.
    + intros ->. now destruct c.
Qed.

(** ** The form and the server *)

Lemma present_with_length_long n v :
  Apply.present_with_length n v = true ->
  exists s, v = Some s /\ (n <= String.length s)%nat.
Proof.
  unfold Apply.present_with_length. destruct v as [s|]; [|discriminate].
  intros Hpresent. apply andb_true_iff in Hpresent as [_ Hlen].
  exists s. split; [reflexivity|]. now apply Nat.leb_le.
Qed.

(** X17.  Bank details that the schema of the request form accepts, and
    that hold no [accountHolderName], are accepted by the schema of the
    server with the same values, and hold the routing information of their
    country: a sort code of six characters at least for UK, a routing number
    of nine at least for USA. *)
Theorem form_bank_details_pass_the_server fields data :
  Apply.bankDetailsSchema (JObject fields) = Valid data ->
  property "accountHolderName" fields = None ->
  bankDetailsSchema (Some (JObject fields))
  = Valid (BankDetailsData.mk (Apply.country data) (Apply.bankName data)
             (Apply.accountNumber data) (Some <$> Apply.sortCode data)
             (Some <$> Apply.routingNumber data) None)
  /\ (Apply.country data = UK ->
      exists sortCode,
        Apply.sortCode data = Some sortCode /\ (6 <= String.length sortCode)%nat)
  /\ (Apply.country data = USA ->
      exists routingNumber,
        Apply.routingNumber data = Some routingNumber
        /\ (9 <= String.length routingNumber)%nat).
Proof.
  unfold Apply.bankDetailsSchema, bankDetailsSchema. intros Hform Hholder.
  rewrite Hholder. revert Hform.
  destruct (z_enum_country _) as [c|]; simpl; [|discriminate].
  destruct (z_string_min 2 _) as [bn|]; simpl; [|discriminate].
  destruct (z_string_min 6 _) as [an|]; simpl; [|discriminate].
  assert (Hopt : forall v o,
             Apply.z_string_optional v = Valid o ->
             z_string_optional_nullable v = Valid (Some <$> o)).
  { intros [[| | |x| |]|] o; simpl; try discriminate; now intros [= <-]. }
  destruct (Apply.z_string_optional (property "sortCode" fields)) as [sc|] eqn:Hsc;
    simpl; [|discriminate].
  destruct (Apply.z_string_optional (property "routingNumber" fields)) as [rn|] eqn:Hrn;
    simpl; [|discriminate].
  rewrite (Hopt _ _ Hsc), (Hopt _ _ Hrn). simpl.
  destruct (Apply.routing_information _) eqn:Hinfo; [|discriminate].
  intros [= <-]. simpl. split; [reflexivity|].
  unfold Apply.routing_information in Hinfo.
  cbn [Apply.country Apply.sortCode Apply.routingNumber] in Hinfo.
  split; intros ->; now apply present_with_length_long.
Qed.

(** ** The counters of the two dashboards *)

(** X18.  On the dashboard of an applicant every application is counted
    once: the total is the sum of the counters "pending" (pending or under
    review), "approved" and "paid" and of the number of rejected
    applications, which has no counter; without data all counters are 0. *)
Theorem dashboard_counters_partition (applications : option (list Application.t)) :
  Dashboard.total (Dashboard.stats applications)
  = (Dashboard.pending_count (Dashboard.stats applications)
     + Dashboard.approved_count (Dashboard.stats applications)
     + Dashboard.paid_count (Dashboard.stats applications)
     + Dashboard.count_where (Dashboard.has_status rejected) applications)%nat
  /\ Dashboard.total (Dashboard.stats applications)
     = match applications with
       | Some apps => List.length apps
       | None => 0%nat
       end.
Proof.
  destruct applications as [apps|]; [|split; reflexivity]. simpl.
  unfold Dashboard.has_status. split.
  - induction apps as [|a apps IH]; [reflexivity|]. simpl.
    destruct (Application.status a); simpl; rewrite IH; lia.
  - induction apps as [|a apps IH]; [reflexivity|]. simpl. now rewrite IH.
Qed.

(** X19.  On the dashboard of the administrators every application is
    counted once: the total is the sum of the counters [pending],
    [underReview] and [approved] (approved or paid) and of the number of
    rejected applications, which has no counter; without data all counters
    are 0. *)
Theorem admin_counters_partition (applications : option (list Admin.ApplicationWithUser)) :
  Admin.total (Admin.stats applications)
  = (Admin.pending_count (Admin.stats applications)
     + Admin.underReview (Admin.stats applications)
     + Admin.approved_count (Admin.stats applications)
     + Admin.count_where (Admin.has_status rejected) applications)%nat
  /\ Admin.total (Admin.stats applications)
     = match applications with
       | Some apps => List.length apps
       | None => 0%nat
       end.
Proof.
  destruct applications as [apps|]; [|split; reflexivity]. simpl.
  unfold Admin.has_status. split.
  - induction apps as [|a apps IH]; [reflexivity|]. simpl.
    destruct (Application.status (Admin.application a)); simpl; rewrite IH; lia.
  - induction apps as [|a apps IH]; [reflexivity|]. simpl. now rewrite IH.
Qed.

(** ** The filter of the admin dashboard *)

Lemma statusName_inj st st' : statusName st = statusName st' -> st = st'.
Proof. destruct st, st'; simpl; congruence. Qed.

(** X20.  Whatever the search text, the rows that the admin dashboard lists
    under the filter of a status are rows of the collection with that
    status, in their order; under "all" they are the rows that match the
    search text, all of them when it is empty; a filter that is neither
    "all" nor the name of a status lists nothing. *)
Theorem status_filter_is_exact (toLowerCase : string -> string)
    (apps : list Admin.ApplicationWithUser) (searchQuery : string) :
  (forall st,
     Admin.filteredApplications toLowerCase (Some apps) searchQuery (statusName st)
     = Some (List.filter
               (fun app =>
                  Admin.matchesSearch toLowerCase searchQuery app && Admin.has_status st app)
               apps))
  /\ Admin.filteredApplications toLowerCase (Some apps) searchQuery "all"
     = Some (List.filter (Admin.matchesSearch toLowerCase searchQuery) apps)
  /\ (toLowerCase "" = "" ->
      Admin.filteredApplications toLowerCase (Some apps) "" "all" = Some apps)
  /\ (forall statusFilter,
        statusFilter <> "all" ->
        (forall st, statusFilter <> statusName st) ->
        Admin.filteredApplications toLowerCase (Some apps) searchQuery statusFilter
        = Some []).
Proof.
  split; [|split; [|split]].
  - intros st. unfold Admin.filteredApplications. f_equal.
    apply List.filter_ext. intros app. f_equal.
    unfold Admin.matchesStatus, Admin.has_status.
    replace (String.eqb (statusName st) "all") with false by now destruct st.
    simpl. destruct (decide (Application.status (Admin.application app) = st)) as [->|Hne].
    + rewrite String.eqb_refl. now rewrite bool_decide_eq_true_2.
    + rewrite bool_decide_eq_false_2 by exact Hne.
      apply String.eqb_neq. intros Heq. now apply statusName_inj in Heq.
  - unfold Admin.filteredApplications. f_equal. apply List.filter_ext. intros app.
    unfold Admin.matchesStatus. simpl. apply andb_true_r.
  - intros Hlower. unfold Admin.filteredApplications. f_equal.
    rewrite <- (List.filter_ext (fun _ => true)).
    + induction apps as [|a l IH]; [reflexivity|]. simpl. now rewrite IH.
    + intros app. unfold Admin.matchesSearch. now rewrite Hlower, includes_empty.
  - intros statusFilter Hall Hname. unfold Admin.filteredApplications. f_equal.
    induction apps as [|a l IH]; [reflexivity|]. simpl. rewrite IH.
    unfold Admin.matchesStatus.
    apply String.eqb_neq in Hall. rewrite Hall. simpl.
    assert (String.eqb (statusName (Application.status (Admin.application a))) statusFilter
            = false) as ->.
    { apply String.eqb_neq. intros Heq. symmetry in Heq. now apply Hname in Heq. }
    now rewrite andb_false_r.
Qed.

(** ** The card of an application *)

Lemma substring_is_prefix n s : String.prefix (String.substring 0 n s) s = true.
Proof.
  revert n. induction s as [|c s IH]; intros n.
  - now destruct n.
  - destruct n as [|n]; simpl; [reflexivity|].
    destruct (Ascii.ascii_dec c c); [apply IH | contradiction].
Qed.

(** X21.  The heading of a card is the reason itself when it has fifty
    characters at most; a longer reason is cut to its first fifty characters
    followed by three dots, fifty-three characters in all. *)
Theorem heading_is_cut_at_fifty (application : Application.t) :
  ((String.length (Application.reason application) <= 50)%nat ->
   ApplicationCard.heading application = Application.reason application)
  /\ ((50 < String.length (Application.reason application))%nat ->
      exists start,
        ApplicationCard.heading application = start ++ "..."
        /\ String.length start = 50%nat
        /\ String.prefix start (Application.reason application) = true
        /\ String.length (ApplicationCard.heading application) = 53%nat)
  /\ (String.length (ApplicationCard.heading application) <= 53)%nat.
Proof.
  unfold ApplicationCard.heading.
  destruct (50 <? String.length (Application.reason application))%nat eqn:Hlong.
  - apply Nat.ltb_lt in Hlong.
    assert (Hstart : String.length (String.substring 0 50 (Application.reason application))
                     = 50%nat) by (rewrite length_substring; lia).
    split; [lia|]. split.
    + intros _. eexists. split; [reflexivity|]. split; [exact Hstart|].
      split; [apply substring_is_prefix|]. rewrite length_append, Hstart. reflexivity.
    + rewrite length_append, Hstart. simpl. lia.
  - apply Nat.ltb_ge in Hlong. split; [reflexivity|]. split; [lia | lia].
Qed.

(** ** More sample runs *)

Abbreviation demo_site_after :=
  (site_after Demo.clock Demo.gen_random_uuid Demo.positiveAmount).
Abbreviation demo_reachable_site :=
  (reachable_site Demo.clock Demo.gen_random_uuid Demo.positiveAmount).
Abbreviation demo_put_profile := (put_profile Demo.clock Demo.gen_random_uuid).
Abbreviation demo_post_bank_details :=
  (post_bank_details Demo.clock Demo.gen_random_uuid).
Abbreviation demo_patch := (patch_admin_application Demo.clock).


(** The bank details of a first [POST /api/bank-details] are a valid row. *)
Lemma stored_bank_details_are_valid_witness :
  exists b,
    demo_reachable (demo_run [Demo.add_account] initial)
    /\ bankDetails (demo_run [Demo.add_account] initial) !! "id-0" = Some b
    /\ BankDetails.id b = "id-0"
    /\ (2 <= String.length (BankDetails.bankName b))%nat
    /\ (6 <= String.length (BankDetails.accountNumber b))%nat
    /\ (BankDetails.isVerified b = "verified" <-> BankDetails.accountHolderName b <> None)
    /\ (BankDetails.isVerified b = "pending" <-> BankDetails.accountHolderName b = None)
    /\ BankDetails.sortCode b <> Some ""
    /\ BankDetails.routingNumber b <> Some ""
    /\ BankDetails.accountHolderName b <> Some "".
Proof.
  eexists. split; [apply demo_run_reachable|]. split; [reflexivity|].
  exact (stored_bank_details_are_valid _ _ _ _ (demo_run_reachable [Demo.add_account])
           "id-0" _ eq_refl).
Defined.

(** After a submission that brought its bank details, the applicant cannot
    delete them. *)
Lemma linked_bank_details_stay_witness :
  exists a,
    demo_reachable (demo_run [Sample.submit_with_account] initial)
    /\ applications (demo_run [Sample.submit_with_account] initial) !! "id-1" = Some a
    /\ Application.bankDetailsId a = Some "id-0"
    /\ exists b,
         bankDetails (demo_run [Sample.submit_with_account] initial) !! "id-0" = Some b
         /\ BankDetails.userId b = Application.userId a
         /\ delete_bank_details (Application.userId a) "id-0"
              (demo_run [Sample.submit_with_account] initial)
            = (status_message 500 "Failed to delete bank details",
               demo_run [Sample.submit_with_account] initial).
Proof.
  eexists. split; [apply demo_run_reachable|]. split; [reflexivity|].
  split; [reflexivity|].
  exact (linked_bank_details_stay _ _ _ _
           (demo_run_reachable [Sample.submit_with_account]) "id-1" _ "id-0"
           eq_refl eq_refl).
Defined.

(** An update of an application that does not exist is answered 404 and
    changes nothing. *)
Lemma client_errors_change_nothing_witness :
  statusCode (demo_response (Demo.mark paid) initial) = 404
  /\ demo_after (Demo.mark paid) initial = initial.
Proof.
  split; [reflexivity|].
  apply client_errors_change_nothing. right. right. reflexivity.
Defined.

(** A submission leaves the bank details of the applicant as they are. *)
Lemma bank_details_are_immutable_witness :
  exists b,
    bankDetails (demo_run [Demo.add_account] initial) !! "id-0" = Some b
    /\ (bankDetails (demo_after Demo.submit (demo_run [Demo.add_account] initial)) !! "id-0"
        = Some b
        \/ (bankDetails (demo_after Demo.submit (demo_run [Demo.add_account] initial))
            !! "id-0" = None
            /\ Demo.submit = DeleteBankDetails (BankDetails.userId b) "id-0"
            /\ demo_response Demo.submit (demo_run [Demo.add_account] initial)
               = json Success
            /\ ~ referenced (demo_run [Demo.add_account] initial) "id-0")).
Proof.
  eexists. split; [reflexivity|].
  exact (bank_details_are_immutable _ _ _ Demo.submit
           (demo_run [Demo.add_account] initial) "id-0" _ eq_refl).
Defined.

(** Bank details added to the empty tables and deleted again leave the
    tables empty. *)
Lemma added_bank_details_can_be_removed_witness :
  exists b,
    demo_reachable initial
    /\ fst (demo_post_bank_details "alice" Demo.uk_account_without_sort_code initial)
       = json (BankDetailsJson b)
    /\ fst (delete_bank_details "alice" (BankDetails.id b)
              (snd (demo_post_bank_details "alice" Demo.uk_account_without_sort_code
                      initial)))
       = json Success
    /\ bankDetails
         (snd (delete_bank_details "alice" (BankDetails.id b)
                 (snd (demo_post_bank_details "alice" Demo.uk_account_without_sort_code
                         initial))))
       = bankDetails initial
    /\ applications
         (snd (delete_bank_details "alice" (BankDetails.id b)
                 (snd (demo_post_bank_details "alice" Demo.uk_account_without_sort_code
                         initial))))
       = applications initial.
Proof.
  eexists. split; [constructor|]. split; [reflexivity|].
  exact (added_bank_details_can_be_removed _ _ Demo.positiveAmount initial "alice"
           Demo.uk_account_without_sort_code _ (reachable_initial _ _ _) eq_refl).
Defined.

(** Two administrators mark the same application as paid, one after the
    other. *)
Lemma paid_again_overwrites_paidAt_witness :
  exists a upd,
    applications (demo_run [Demo.submit] initial) !! "id-0" = Some a
    /\ updateApplicationSchema (Demo.set_status paid) = Valid upd
    /\ UpdateData.status upd = Some paid
    /\ exists a1 a2,
         applications
           (snd (demo_patch "bob" "id-0" (Demo.set_status paid)
                   (demo_run [Demo.submit] initial))) !! "id-0" = Some a1
         /\ applications
              (snd (demo_patch "carol" "id-0" (Demo.set_status paid)
                      (snd (demo_patch "bob" "id-0" (Demo.set_status paid)
                              (demo_run [Demo.submit] initial))))) !! "id-0" = Some a2
         /\ Application.paidAt a1
            = Some (Demo.clock (1 + tick (demo_run [Demo.submit] initial)))
         /\ Application.paidAt a2
            = Some (Demo.clock (4 + tick (demo_run [Demo.submit] initial)))
         /\ Application.paidAmount a1 = Some (Application.amountRequested a)
         /\ Application.paidAmount a2 = Some (Application.amountRequested a)
         /\ Application.reviewedBy a2 = Some "carol".
Proof.
  eexists. eexists. split; [reflexivity|]. split; [reflexivity|]. split; [reflexivity|].
  exact (paid_again_overwrites_paidAt Demo.clock (demo_run [Demo.submit] initial) "id-0" _
           "bob" (Demo.set_status paid) _ "carol" (Demo.set_status paid) _
           eq_refl eq_refl eq_refl eq_refl eq_refl).
Defined.

(** An update that carries a note stores the note. *)
Lemma admin_notes_follow_the_body_witness :
  exists a upd,
    applications (demo_run [Demo.submit] initial) !! "id-0" = Some a
    /\ updateApplicationSchema
         (JObject [("adminNotes", JString "Called the applicant")]) = Valid upd
    /\ exists a',
         applications
           (snd (demo_patch "bob" "id-0"
                   (JObject [("adminNotes", JString "Called the applicant")])
                   (demo_run [Demo.submit] initial))) !! "id-0" = Some a'
         /\ Application.adminNotes a' = Some "Called the applicant".
Proof.
  eexists. eexists. split; [reflexivity|]. split; [reflexivity|].
  destruct (admin_notes_follow_the_body Demo.clock (demo_run [Demo.submit] initial)
              "bob" "id-0" [("adminNotes", JString "Called the applicant")] _ _
              eq_refl eq_refl) as (a' & Hrow & _ & _ & Hnotes).
  exists a'. split; [exact Hrow|]. apply Hnotes. reflexivity.
Defined.

(** The listing of the administrators after a submission that brought its
    bank details. *)
Lemma admin_listing_joins_own_bank_details_witness :
  demo_reachable (demo_run [Sample.submit_with_account] initial)
  /\ exists found,
       get_admin_applications Sample.users (demo_run [Sample.submit_with_account] initial)
       = (Json200 found, demo_run [Sample.submit_with_account] initial)
       /\ length found = 1%nat
       /\ forall row,
            row ∈ found ->
            Admin.user row = Sample.users !! Application.userId (Admin.application row).
Proof.
  split; [apply demo_run_reachable|].
  destruct (admin_listing_joins_own_bank_details _ _ _ Sample.users _
              (demo_run_reachable [Sample.submit_with_account]))
    as (found & Hanswer & _ & Hlength & _ & Hrows).
  exists found. split; [exact Hanswer|]. split; [exact Hlength|].
  intros row Hrow. exact (proj1 (Hrows row Hrow)).
Defined.

(** A body that asks for the role of an administrator yields a
    beneficiary. *)
Lemma profiles_are_unique_beneficiaries_witness :
  demo_reachable_site (demo_site_after (PutProfile "alice" Sample.profile_body) initial_site)
  /\ (UserProfile.fullName
      <$> userProfiles (demo_site_after (PutProfile "alice" Sample.profile_body) initial_site))
     = ["Alice Example"]
  /\ forall p,
       p ∈ userProfiles (demo_site_after (PutProfile "alice" Sample.profile_body) initial_site) ->
       UserProfile.role p = UserProfile.beneficiary
       /\ (2 <= String.length (UserProfile.fullName p))%nat.
Proof.
  assert (Hsite : demo_reachable_site
                    (demo_site_after (PutProfile "alice" Sample.profile_body) initial_site))
    by (constructor; constructor).
  split; [exact Hsite|]. split; [reflexivity|].
  exact (proj2 (proj2 (profiles_are_unique_beneficiaries _ _ _ _ Hsite))).
Defined.

(** A second user puts a profile: it is created beside the first one. *)
Lemma put_profile_upserts_witness :
  exists data,
    profileSchema Sample.profile_body = Valid data
    /\ exists p,
         fst (demo_put_profile "alice" Sample.profile_body
                (demo_site_after (PutProfile "bob" Sample.profile_body) initial_site))
         = Json200 (Some p)
         /\ UserProfile.userId p = "alice"
         /\ UserProfile.fullName p = ProfileData.fullName data.
Proof.
  eexists. split; [reflexivity|].
  destruct (put_profile_upserts Demo.clock Demo.gen_random_uuid "alice" Sample.profile_body _
              (demo_site_after (PutProfile "bob" Sample.profile_body) initial_site)
              eq_refl)
    as (p & Hanswer & _ & Howner & Hname & _).
  - intros _ p Hp. vm_compute in Hp. apply list_elem_of_singleton in Hp. subst p.
    vm_compute. discriminate.
  - exists p. split; [exact Hanswer|]. split; [exact Howner | exact Hname].
Defined.

(** The account number "12345678" is shown as "****5678". *)
Lemma masked_account_hides_the_start_witness :
  exists b,
    demo_reachable (demo_run [Demo.add_account] initial)
    /\ bankDetails (demo_run [Demo.add_account] initial) !! "id-0" = Some b
    /\ BankDetails.accountNumber b = "12345678"
    /\ exists hidden shown,
         BankDetails.accountNumber b = hidden ++ shown
         /\ masked_account (BankDetails.accountNumber b) = "****" ++ shown
         /\ String.length shown = 4%nat
         /\ (2 <= String.length hidden)%nat
         /\ String.length (masked_account (BankDetails.accountNumber b)) = 8%nat.
Proof.
  eexists. split; [apply demo_run_reachable|]. split; [reflexivity|].
  split; [reflexivity|].
  exact (masked_account_hides_the_start _ _ _ _ "id-0" _
           (demo_run_reachable [Demo.add_account]) eq_refl).
Defined.

(** The fields of the form for a US account pass both schemas. *)
Lemma form_bank_details_pass_the_server_witness :
  exists data,
    Apply.bankDetailsSchema (JObject Sample.us_account_form) = Valid data
    /\ property "accountHolderName" Sample.us_account_form = None
    /\ bankDetailsSchema (Some (JObject Sample.us_account_form))
       = Valid (BankDetailsData.mk (Apply.country data) (Apply.bankName data)
                  (Apply.accountNumber data) (Some <$> Apply.sortCode data)
                  (Some <$> Apply.routingNumber data) None)
    /\ Apply.routingNumber data = Some "021000021".
Proof.
  eexists. split; [reflexivity|]. split; [reflexivity|].
  split; [|reflexivity].
  exact (proj1 (form_bank_details_pass_the_server Sample.us_account_form _
                  eq_refl eq_refl)).
Defined.


(** A first submission is read back by its owner. *)
Lemma submitted_application_can_be_read_witness :
  exists a,
    fst (post_applications Demo.clock Demo.gen_random_uuid Demo.positiveAmount "alice"
           Demo.submission initial)
    = json (ApplicationJson (Some a))
    /\ get_application "alice" (Application.id a) (demo_after Demo.submit initial)
       = (Json200 a, demo_after Demo.submit initial).
Proof.
  eexists. split; [reflexivity|].
  exact (proj1 (submitted_application_can_be_read Demo.clock Demo.gen_random_uuid
                  Demo.positiveAmount "alice" Demo.submission _ initial eq_refl)).
Defined.
